(** * rmscene: the tagged block writer

    A shallow embedding of [src/rmscene/tagged_block_writer.py] and the
    properties of its block and subblock regions.

    The Python objects the writer shares (the output stream and the
    [BytesIO] buffers of the open regions) live in an explicit store;
    [self.data] is a reference into that store, so that swapping and
    restoring the write target is modelled as the code does it.
    Exceptions leave the store as it is at the point of the raise.

    Every sink accepts the bytes written to it: the output stream is
    taken to be as reliable as a [BytesIO]. The errors that do occur are
    the nesting error of [write_block], the range errors of the
    fixed-width and variable-width fields, and whatever the caller
    raises inside a region. *)

From Stdlib Require Import ZArith Lia String.
From Stdlib Require Import Strings.Byte.
From stdpp Require Import base list.

Local Open Scope Z_scope.

(** ** Bytes *)

Abbreviation bytes := (list byte).

(** The byte with value [z mod 256]. *)
Definition byte_of_Z (z : Z) : byte :=
  match Byte.of_N (Z.to_N (Z.land z 255)) with
  | Some b => b
  | None => x00
  end.

(** The unsigned integer a run of bytes holds, least significant byte
    first. *)
Definition le_value (b : bytes) : Z :=
  fold_right (fun x acc => Z.of_N (Byte.to_N x) + 256 * acc) 0 b.

(** The unsigned integer a run of base-128 groups holds, least
    significant group first, the continuation bits left out. *)
Definition varuint_value (b : bytes) : Z :=
  fold_right (fun x acc => Z.of_N (Byte.to_N x) mod 128 + 128 * acc) 0 b.

(** ** Exceptions and the store *)

Inductive exn : Type :=
| UnexpectedBlockError (msg : string)
| EncodingRangeError
| AssertionError
| OSError
| CallerError (code : nat).

Inductive outcome (A : Type) : Type :=
| Ok (a : A)
| Raised (e : exn).
Arguments Ok {A} a.
Arguments Raised {A} e.

(** The store of binary sinks, addressed by allocation order, together
    with the two attributes of the [TaggedBlockWriter] instance. A
    [DataStream] is identified with the sink it wraps. *)
Record writer : Type := Writer {
  sinks : list bytes;
  data : nat;
  _in_block : bool
}.

Definition M (A : Type) : Type := writer -> outcome A * writer.

Definition ret {A} (a : A) : M A := fun w => (Ok a, w).

Definition bind {A B} (m : M A) (k : A -> M B) : M B :=
  fun w => match m w with
           | (Ok a, w1) => k a w1
           | (Raised e, w1) => (Raised e, w1)
           end.

Definition raise {A} (e : exn) : M A := fun w => (Raised e, w).

Declare Scope writer_scope.
Delimit Scope writer_scope with writer.
Notation "x <- m ;; k" := (bind m (fun x => k))
  (at level 100, m at next level, right associativity) : writer_scope.
Notation "m ;; k" := (bind m (fun _ => k))
  (at level 100, right associativity) : writer_scope.
Local Open Scope writer_scope.

(** [try: body finally: cleanup]. The cleanup runs on both exits; an
    exception of the body is raised again after it. *)
Definition try_finally {A} (body : M A) (cleanup : M unit) : M A :=
  fun w => match body w with
           | (r, w1) => match cleanup w1 with
                        | (Ok _, w2) => (r, w2)
                        | (Raised e, w2) => (Raised e, w2)
                        end
           end.

(** [try: body except Exception: handler], as a caller writes it. *)
Definition try_except (body handler : M unit) : M unit :=
  fun w => match body w with
           | (Ok a, w1) => (Ok a, w1)
           | (Raised _, w1) => handler w1
           end.

Definition get_data : M nat := fun w => (Ok (data w), w).
Definition set_data (d : nat) : M unit :=
  fun w => (Ok tt, Writer (sinks w) d (_in_block w)).
Definition get_in_block : M bool := fun w => (Ok (_in_block w), w).
Definition set_in_block (b : bool) : M unit :=
  fun w => (Ok tt, Writer (sinks w) (data w) b).

(** [BytesIO()]: a fresh, empty buffer. *)
Definition BytesIO : M nat :=
  fun w => (Ok (length (sinks w)), Writer (sinks w ++ [[]]) (data w) (_in_block w)).

(** [buf.getbuffer()]. *)
Definition getbuffer (buf : nat) : M bytes :=
  fun w => (Ok (default [] (sinks w !! buf)), w).

(** [assert cond]. *)
Definition assert (cond : bool) : M unit :=
  if cond then ret tt else raise AssertionError.

(** ** Wire types *)

Inductive TagType : Type := ID | Length4 | Byte8 | Byte4 | Byte1.

Record CrdtId : Type := { part1 : Z; part2 : Z }.

(** The parts of [tagged_block_common] whose layout the encoder takes as
    given: how a tag packs its index and type, and the IEEE-754 images of
    the floats. [None] is a value the packing rejects. *)
Class Wire : Type := {
  float : Type;
  pack_tag : Z -> TagType -> option bytes;
  pack_float32 : float -> option bytes;
  pack_float64 : float -> option bytes
}.

(** ** DataStream *)

Module DataStream.

(** [self.data.write(b)] on the wrapped sink. *)
Definition write (ds : nat) (b : bytes) : M unit :=
    fun w => (Ok tt, Writer (alter (fun old => old ++ b) ds (sinks w)) (data w) (_in_block w)).

Definition write_packed (ds : nat) (p : option bytes) : M unit :=
    match p with
    | Some b => write ds b
    | None => raise EncodingRangeError
    end.

(** Modelled from the spec: [DataStream.write_uint8], a fixed-width
      unsigned integer of one byte; a value outside the slot is rejected. *)
Definition pack_uint8 (v : Z) : option bytes :=
    if (0 <=? v) && (v <? 256) then Some [byte_of_Z v] else None.

(** Modelled from the spec: [DataStream.write_uint32], a fixed-width
      unsigned integer of four bytes, little-endian; a value outside the
      slot is rejected. *)
Definition uint32_le (v : Z) : bytes :=
    [byte_of_Z v; byte_of_Z (Z.shiftr v 8);
     byte_of_Z (Z.shiftr v 16); byte_of_Z (Z.shiftr v 24)].

Definition pack_uint32 (v : Z) : option bytes :=
    if (0 <=? v) && (v <? 2 ^ 32) then Some (uint32_le v) else None.

Fixpoint varuint_loop (fuel : nat) (value : Z) : bytes :=
    let to_write := Z.land value 127 in
    let value := Z.shiftr value 7 in
    match fuel with
    | O => [byte_of_Z to_write]
    | S fuel =>
        if value =? 0 then [byte_of_Z to_write]
        else byte_of_Z (Z.lor to_write 128) :: varuint_loop fuel value
    end.

(** Modelled from the spec: [DataStream.write_varuint], base 128 with a
      continuation bit, least significant group first; a negative value is
      rejected. *)
Definition pack_varuint (v : Z) : option bytes :=
    if v <? 0 then None else Some (varuint_loop (Z.to_nat (Z.log2 v)) v).

(** Modelled from the spec: [DataStream.write_bool], a single byte, 0 or 1. *)
Definition pack_bool (v : bool) : bytes := [if v then x01 else x00].

Definition write_uint8 (ds : nat) (v : Z) : M unit := write_packed ds (pack_uint8 v).
Definition write_uint32 (ds : nat) (v : Z) : M unit := write_packed ds (pack_uint32 v).
Definition write_varuint (ds : nat) (v : Z) : M unit := write_packed ds (pack_varuint v).
Definition write_bool (ds : nat) (v : bool) : M unit := write ds (pack_bool v).
Definition write_bytes (ds : nat) (b : bytes) : M unit := write ds b.

(** Modelled from the spec: [DataStream.write_header], the fixed
    file-identification preamble; its bytes are a parameter. *)
Definition write_header (preamble : bytes) (ds : nat) : M unit := write ds preamble.

Section Layout.
Context {wire : Wire}.
Definition write_tag (ds : nat) (index : Z) (tag_type : TagType) : M unit :=
      write_packed ds (pack_tag index tag_type).
Definition write_float32 (ds : nat) (v : float) : M unit :=
      write_packed ds (pack_float32 v).
Definition write_float64 (ds : nat) (v : float) : M unit :=
      write_packed ds (pack_float64 v).
End Layout.

End DataStream.

(** ** TaggedBlockWriter *)

(** [TaggedBlockWriter(data)]: the output stream, with what it already
    holds, is the only sink and the write target; no block is open. *)
Definition init (stream : bytes) : writer := Writer [stream] 0 false.

(** [self.data.method(...)]: the method of whichever stream is the write
    target at that moment. *)
Definition self_data {A} (method : nat -> M A) : M A :=
  ds <- get_data ;; method ds.

Section Writer.
Context {wire : Wire}.

Definition write_id (index : Z) (value : CrdtId) : M unit :=
    self_data (fun ds => DataStream.write_tag ds index ID) ;;
    self_data (fun ds => DataStream.write_uint8 ds (part1 value)) ;;
    self_data (fun ds => DataStream.write_varuint ds (part2 value)).

Definition write_bool (index : Z) (value : bool) : M unit :=
    self_data (fun ds => DataStream.write_tag ds index Byte1) ;;
    self_data (fun ds => DataStream.write_bool ds value).

Definition write_byte (index : Z) (value : Z) : M unit :=
    self_data (fun ds => DataStream.write_tag ds index Byte1) ;;
    self_data (fun ds => DataStream.write_uint8 ds value).

Definition write_int (index : Z) (value : Z) : M unit :=
    self_data (fun ds => DataStream.write_tag ds index Byte4) ;;
    self_data (fun ds => DataStream.write_uint32 ds value).

Definition write_float (index : Z) (value : float) : M unit :=
    self_data (fun ds => DataStream.write_tag ds index Byte4) ;;
    self_data (fun ds => DataStream.write_float32 ds value).

Definition write_double (index : Z) (value : float) : M unit :=
    self_data (fun ds => DataStream.write_tag ds index Byte8) ;;
    self_data (fun ds => DataStream.write_float64 ds value).

(** [with self.write_block(block_type, min_version, current_version): body].
      The generator runs up to its [yield], then the body of the [with]
      statement, then the rest; an exception of the body is thrown in at
      the [yield], so only the [finally] clause runs before it leaves. *)
Definition write_block (block_type min_version current_version : Z)
      (body : M unit) : M unit :=
    in_block <- get_in_block ;;
    if in_block : bool then raise (UnexpectedBlockError "Already in a block") else
    previous_data <- get_data ;;
    block_buf <- BytesIO ;;
    let block_data := block_buf in
    try_finally
      (set_data block_data ;;
       set_in_block true ;;
       body)
      (set_data previous_data) ;;
    in_block <- get_in_block ;;
    assert in_block ;;
    set_in_block false ;;
    buffer <- getbuffer block_buf ;;
    self_data (fun ds => DataStream.write_uint32 ds (Z.of_nat (length buffer))) ;;
    self_data (fun ds => DataStream.write_uint8 ds 0) ;;
    self_data (fun ds => DataStream.write_uint8 ds min_version) ;;
    self_data (fun ds => DataStream.write_uint8 ds current_version) ;;
    self_data (fun ds => DataStream.write_uint8 ds block_type) ;;
    buffer <- getbuffer block_buf ;;
    self_data (fun ds => DataStream.write_bytes ds buffer).

(** [with self.write_subblock(index): body]. *)
Definition write_subblock (index : Z) (body : M unit) : M unit :=
    previous_data <- get_data ;;
    subblock_buf <- BytesIO ;;
    let subblock_data := subblock_buf in
    try_finally
      (set_data subblock_data ;;
       body)
      (set_data previous_data) ;;
    self_data (fun ds => DataStream.write_tag ds index Length4) ;;
    buffer <- getbuffer subblock_buf ;;
    self_data (fun ds => DataStream.write_uint32 ds (Z.of_nat (length buffer))) ;;
    buffer <- getbuffer subblock_buf ;;
    self_data (fun ds => DataStream.write_bytes ds buffer).

End Writer.

(** ** Caller programs

    What a caller does with a writer between two points of its own
    code: tagged values, regions opened by [with], its own exceptions and
    its own [try] statements, in sequence. *)

Section Scripts.
Context {wire : Wire}.

Inductive script : Type :=
  | Pass
  | Then (p q : script)
  | WriteId (index : Z) (value : CrdtId)
  | WriteBool (index : Z) (value : bool)
  | WriteByte (index value : Z)
  | WriteInt (index value : Z)
  | WriteFloat (index : Z) (value : float)
  | WriteDouble (index : Z) (value : float)
  | WithBlock (block_type min_version current_version : Z) (body : script)
  | WithSubblock (index : Z) (body : script)
  | RaiseExn (e : exn)
  | TryExcept (body handler : script).

Fixpoint run (p : script) : M unit :=
    match p with
    | Pass => ret tt
    | Then p q => run p ;; run q
    | WriteId index value => write_id index value
    | WriteBool index value => write_bool index value
    | WriteByte index value => write_byte index value
    | WriteInt index value => write_int index value
    | WriteFloat index value => write_float index value
    | WriteDouble index value => write_double index value
    | WithBlock block_type min_version current_version body =>
        write_block block_type min_version current_version (run body)
    | WithSubblock index body => write_subblock index (run body)
    | RaiseExn e => raise e
    | TryExcept body handler => try_except (run body) (run handler)
    end.

End Scripts.

(** ** Observations on the store *)

(** The write target refers to a sink of the store. *)
Definition wf (w : writer) : Prop := (data w < length (sinks w))%nat.

(** What the sink [r] holds. *)
Definition contents (w : writer) (r : nat) : bytes := default [] (sinks w !! r).

(** The state in which the body of a region starts: a fresh empty
    buffer is the write target. *)
Definition open_subblock (w : writer) : writer :=
  Writer (sinks w ++ [[]]) (length (sinks w)) (_in_block w).
Definition open_block (w : writer) : writer :=
  Writer (sinks w ++ [[]]) (length (sinks w)) true.

(** Between [w] and [w'] the bytes [out] were appended to the write
    target of [w], the target is the same again, no other sink of [w]
    changed, and the store only grew by buffers allocated since. *)
Definition appends (w w' : writer) (out : bytes) : Prop :=
  data w' = data w /\
  exists junk, sinks w' = alter (fun old => old ++ out) (data w) (sinks w) ++ junk.

(** ** Runs of writes to the write target *)

(** The chunks are written one after the other to whichever sink is the
    write target; the first chunk that does not pack stops the run. *)
Fixpoint emit (chunks : list (option bytes)) : M unit :=
  match chunks with
  | [] => ret tt
  | c :: cs => self_data (fun ds => DataStream.write_packed ds c) ;; emit cs
  end.

Fixpoint packed_all (chunks : list (option bytes)) : option bytes :=
  match chunks with
  | [] => Some []
  | Some b :: cs =>
      match packed_all cs with
      | Some rest => Some (b ++ rest)
      | None => None
      end
  | None :: _ => None
  end.

(** The writer after [out] went to its write target. *)
Definition written (w : writer) (out : bytes) : writer :=
  Writer (alter (fun old => old ++ out) (data w) (sinks w)) (data w) (_in_block w).

(** A computation that only appends to the write target it finds,
    hands that target back, and never clears the block flag. *)
Definition tame (m : M unit) : Prop :=
  forall w, wf w ->
    exists out, appends w (snd (m w)) out /\
                (_in_block w = true -> _in_block (snd (m w)) = true).

(** ** The two regions under one name *)

Inductive region : Type :=
| Block (block_type min_version current_version : Z)
| Subblock (index : Z).

Section WithRegion.
Context {wire : Wire}.

Definition with_region (g : region) (body : M unit) : M unit :=
  match g with
  | Block block_type min_version current_version =>
      write_block block_type min_version current_version body
  | Subblock index => write_subblock index body
  end.

End WithRegion.

(** A block opens only when no block is open; a subblock opens anywhere. *)
Definition admits (g : region) (w : writer) : bool :=
  match g with
  | Block _ _ _ => negb (_in_block w)
  | Subblock _ => true
  end.

Definition open_region (g : region) (w : writer) : writer :=
  match g with
  | Block _ _ _ => open_block w
  | Subblock _ => open_subblock w
  end.

(** ** A layout to run the encoder on

    The tag is the varuint of the index shifted left by four bits over
    the code of the type, and a float is given by its two IEEE-754
    images. The properties below hold for every layout; this one serves
    to evaluate the encoder on concrete calls. *)

Definition tag_code (t : TagType) : Z :=
  match t with
  | ID => 15
  | Length4 => 12
  | Byte8 => 8
  | Byte4 => 4
  | Byte1 => 1
  end.

Record ieee : Type := { binary32 : bytes; binary64 : bytes }.

Definition rm_v6 : Wire := {|
  float := ieee;
  pack_tag index t := DataStream.pack_varuint (Z.lor (Z.shiftl index 4) (tag_code t));
  pack_float32 v := Some (binary32 v);
  pack_float64 v := Some (binary64 v)
|}.

(** The record of the concrete scenario: three tagged fields. *)
Definition three_fields : script (wire := rm_v6) :=
  Then (WriteId 1 {| part1 := 3; part2 := 5 |})
       (Then (WriteBool 2 true) (WriteInt 3 42)).

(** ** The rest of the writer *)

(** [TaggedBlockWriter.write_header]; the preamble is the one that
    [DataStream.write_header] emits. *)
Definition write_header (preamble : bytes) : M unit :=
  self_data (fun ds => DataStream.write_header preamble ds).


(** * Properties *)

(** ** The store *)

Lemma wf_init stream : wf (init stream).
Proof. unfold wf; simpl; lia. Qed.

Lemma wf_open_subblock w : wf (open_subblock w).
Proof. unfold wf; simpl. rewrite length_app; simpl; lia. Qed.

Lemma wf_open_block w : wf (open_block w).
Proof. unfold wf; simpl. rewrite length_app; simpl; lia. Qed.

Lemma appends_refl w : appends w w [].
Proof.
  split; [reflexivity|]. exists [].
  rewrite app_nil_r, list_alter_id; [reflexivity|].
  intros x; apply app_nil_r.
Qed.

Lemma appends_wf w w' out : wf w -> appends w w' out -> wf w'.
Proof.
  unfold wf. intros Hw [Hd [junk Hs]].
  rewrite Hd, Hs, length_app, length_alter. lia.
Qed.

Lemma appends_trans w w1 w2 o1 o2 :
  wf w -> appends w w1 o1 -> appends w1 w2 o2 -> appends w w2 (o1 ++ o2).
Proof.
  unfold wf. intros Hw [Hd1 [j1 Hs1]] [Hd2 [j2 Hs2]].
  split; [congruence|]. exists (j1 ++ j2).
  rewrite Hs2, Hd1, Hs1.
  rewrite alter_app_l by (rewrite length_alter; exact Hw).
  rewrite list_alter_alter_eq, <- app_assoc.
  f_equal. apply list_alter_ext; [|reflexivity].
  intros x _. simpl. symmetry. apply app_assoc.
Qed.

Lemma appends_target w w' out :
  wf w -> appends w w' out -> contents w' (data w) = contents w (data w) ++ out.
Proof.
  unfold wf, contents. intros Hw [_ [junk Hs]].
  rewrite Hs, lookup_app_l by (rewrite length_alter; exact Hw).
  rewrite list_lookup_alter_eq.
  destruct (lookup_lt_is_Some_2 _ _ Hw) as [old ->]. reflexivity.
Qed.

Lemma appends_other w w' out r :
  appends w w' out -> (r < length (sinks w))%nat -> r <> data w ->
  sinks w' !! r = sinks w !! r.
Proof.
  intros [_ [junk Hs]] Hr Hne.
  rewrite Hs, lookup_app_l by (rewrite length_alter; exact Hr).
  apply list_lookup_alter_ne. congruence.
Qed.

Lemma appends_length w w' out :
  appends w w' out -> (length (sinks w) <= length (sinks w'))%nat.
Proof.
  intros [_ [junk Hs]]. rewrite Hs, length_app, length_alter. lia.
Qed.

Lemma written_appends w out : appends w (written w out) out.
Proof. split; [reflexivity|]. exists []. simpl. symmetry. apply app_nil_r. Qed.

Lemma written_written w o1 o2 : written (written w o1) o2 = written w (o1 ++ o2).
Proof.
  unfold written; simpl. f_equal.
  rewrite list_alter_alter_eq. apply list_alter_ext; [|reflexivity].
  intros x _. simpl. symmetry. apply app_assoc.
Qed.

Lemma written_nil w : written w [] = w.
Proof.
  destruct w as [s d b]. unfold written; simpl. f_equal.
  apply list_alter_id. intros x. apply app_nil_r.
Qed.

Lemma self_write_packed c w :
  self_data (fun ds => DataStream.write_packed ds c) w =
  match c with
  | Some b => (Ok tt, written w b)
  | None => (Raised EncodingRangeError, w)
  end.
Proof. destruct c; reflexivity. Qed.

Lemma emit_cons c cs w :
  emit (c :: cs) w =
  match c with
  | Some b => emit cs (written w b)
  | None => (Raised EncodingRangeError, w)
  end.
Proof. destruct c; reflexivity. Qed.

Lemma emit_packed chunks : forall w out,
  packed_all chunks = Some out -> emit chunks w = (Ok tt, written w out).
Proof.
  induction chunks as [|[b|] cs IH]; intros w out Hp; simpl in Hp.
  - injection Hp as <-. rewrite written_nil. reflexivity.
  - destruct (packed_all cs) as [rest|] eqn:Hr; [|discriminate].
    injection Hp as <-. rewrite emit_cons, (IH _ rest eq_refl).
    rewrite written_written. reflexivity.
  - discriminate.
Qed.

Lemma emit_returns chunks : forall w w',
  emit chunks w = (Ok tt, w') ->
  exists out, packed_all chunks = Some out /\ w' = written w out.
Proof.
  induction chunks as [|[b|] cs IH]; intros w w' He.
  - exists []. rewrite written_nil. simpl in He. unfold ret in He.
    split; [reflexivity|congruence].
  - rewrite emit_cons in He. destruct (IH _ _ He) as (rest & Hr & ->).
    exists (b ++ rest). simpl. rewrite Hr, written_written. split; reflexivity.
  - rewrite emit_cons in He. discriminate.
Qed.

Lemma emit_raises chunks : forall w e w',
  emit chunks w = (Raised e, w') ->
  e = EncodingRangeError /\ packed_all chunks = None /\ exists out, w' = written w out.
Proof.
  induction chunks as [|[b|] cs IH]; intros w e w' He.
  - discriminate.
  - rewrite emit_cons in He. destruct (IH _ _ _ He) as (-> & Hn & out & ->).
    simpl. rewrite Hn. repeat split. exists (b ++ out). apply written_written.
  - rewrite emit_cons in He. injection He as <- <-.
    repeat split. exists []. symmetry. apply written_nil.
Qed.

Lemma emit_appends chunks w :
  exists out, appends w (snd (emit chunks w)) out /\
              _in_block (snd (emit chunks w)) = _in_block w.
Proof.
  destruct (emit chunks w) as [[[]|e] w'] eqn:He; simpl.
  - destruct (emit_returns _ _ _ He) as (out & _ & ->).
    exists out. split; [apply written_appends|reflexivity].
  - destruct (emit_raises _ _ _ _ He) as (_ & _ & out & ->).
    exists out. split; [apply written_appends|reflexivity].
Qed.

(** ** The regions, one step at a time *)

Lemma region_body_sinks w b w1 out :
  appends (Writer (sinks w ++ [[]]) (length (sinks w)) b) w1 out ->
  data w1 = length (sinks w) /\ exists junk, sinks w1 = sinks w ++ [out] ++ junk.
Proof.
  intros [Hd [junk Hs]]. simpl in *. split; [exact Hd|]. exists junk.
  rewrite Hs, alter_app_r_alt, Nat.sub_diag by lia. simpl.
  rewrite <- app_assoc. reflexivity.
Qed.

Lemma region_closed_appends w w1 payload junk b :
  sinks w1 = sinks w ++ [payload] ++ junk ->
  appends w (Writer (sinks w1) (data w) b) [].
Proof.
  intros Hs. split; [reflexivity|]. exists ([payload] ++ junk). simpl.
  rewrite Hs, list_alter_id; [reflexivity|]. intros x. apply app_nil_r.
Qed.

Lemma region_buffer w w1 payload junk :
  sinks w1 = sinks w ++ [payload] ++ junk ->
  contents w1 (length (sinks w)) = payload.
Proof.
  intros Hs. unfold contents. rewrite Hs. simpl.
  rewrite list_lookup_middle by reflexivity. reflexivity.
Qed.

Section Regions.
Context {wire : Wire}.

Lemma write_id_emit index value w :
    write_id index value w =
    emit [pack_tag index ID; DataStream.pack_uint8 (part1 value);
          DataStream.pack_varuint (part2 value)] w.
Proof.
    unfold write_id, emit, bind, self_data, get_data, ret,
      DataStream.write_tag, DataStream.write_uint8, DataStream.write_varuint.
    destruct (pack_tag index ID); simpl; [|reflexivity].
    destruct (DataStream.pack_uint8 (part1 value)); simpl; [|reflexivity].
    destruct (DataStream.pack_varuint (part2 value)); reflexivity.
Qed.

Lemma write_bool_emit index value w :
    write_bool index value w =
    emit [pack_tag index Byte1; Some (DataStream.pack_bool value)] w.
Proof.
    unfold write_bool, emit, bind, self_data, get_data, ret, DataStream.write_tag.
    destruct (pack_tag index Byte1); reflexivity.
Qed.

Lemma write_byte_emit index value w :
    write_byte index value w =
    emit [pack_tag index Byte1; DataStream.pack_uint8 value] w.
Proof.
    unfold write_byte, emit, bind, self_data, get_data, ret,
      DataStream.write_tag, DataStream.write_uint8.
    destruct (pack_tag index Byte1); simpl; [|reflexivity].
    destruct (DataStream.pack_uint8 value); reflexivity.
Qed.

Lemma write_int_emit index value w :
    write_int index value w =
    emit [pack_tag index Byte4; DataStream.pack_uint32 value] w.
Proof.
    unfold write_int, emit, bind, self_data, get_data, ret,
      DataStream.write_tag, DataStream.write_uint32.
    destruct (pack_tag index Byte4); simpl; [|reflexivity].
    destruct (DataStream.pack_uint32 value); reflexivity.
Qed.

Lemma write_float_emit index value w :
    write_float index value w =
    emit [pack_tag index Byte4; pack_float32 value] w.
Proof.
    unfold write_float, emit, bind, self_data, get_data, ret,
      DataStream.write_tag, DataStream.write_float32.
    destruct (pack_tag index Byte4); simpl; [|reflexivity].
    destruct (pack_float32 value); reflexivity.
Qed.

Lemma write_double_emit index value w :
    write_double index value w =
    emit [pack_tag index Byte8; pack_float64 value] w.
Proof.
    unfold write_double, emit, bind, self_data, get_data, ret,
      DataStream.write_tag, DataStream.write_float64.
    destruct (pack_tag index Byte8); simpl; [|reflexivity].
    destruct (pack_float64 value); reflexivity.
Qed.

(** A second block is refused before anything is touched. *)
Lemma write_block_busy block_type min_version current_version body w :
    _in_block w = true ->
    write_block block_type min_version current_version body w =
    (Raised (UnexpectedBlockError "Already in a block"), w).
Proof.
    intros Hb. unfold write_block, bind, get_in_block. rewrite Hb. reflexivity.
Qed.

(** From the idle state: the body runs on a fresh buffer, the target
      is put back, and only a body that returned lets the header and
      the buffer out. *)
Lemma write_block_step block_type min_version current_version body w r w1 :
    wf w -> _in_block w = false -> body (open_block w) = (r, w1) ->
    write_block block_type min_version current_version body w =
    match r with
    | Ok _ =>
        if _in_block w1
        then emit [DataStream.pack_uint32
                     (Z.of_nat (length (contents w1 (length (sinks w)))));
                   DataStream.pack_uint8 0;
                   DataStream.pack_uint8 min_version;
                   DataStream.pack_uint8 current_version;
                   DataStream.pack_uint8 block_type;
                   Some (contents w1 (length (sinks w)))]
               (Writer (sinks w1) (data w) false)
        else (Raised AssertionError, Writer (sinks w1) (data w) false)
    | Raised e => (Raised e, Writer (sinks w1) (data w) (_in_block w1))
    end.
Proof.
    intros Hw Hb Hbody. unfold wf in Hw.
    unfold write_block, bind, get_in_block. rewrite Hb.
    unfold get_data, BytesIO, try_finally, bind, set_data, set_in_block. simpl.
    unfold open_block in Hbody. rewrite Hbody.
    destruct r as [[]|e]; [|reflexivity].
    unfold get_in_block; simpl. destruct (_in_block w1); [|reflexivity].
    unfold assert, ret, getbuffer, self_data, bind, get_data, emit,
      DataStream.write_uint32, DataStream.write_uint8, DataStream.write_bytes,
      contents; simpl.
    destruct (DataStream.pack_uint32 _); simpl; [|reflexivity].
    destruct (DataStream.pack_uint8 min_version); simpl; [|reflexivity].
    destruct (DataStream.pack_uint8 current_version); simpl; [|reflexivity].
    destruct (DataStream.pack_uint8 block_type); simpl; [|reflexivity].
    rewrite !list_lookup_alter_ne by lia. reflexivity.
Qed.

Lemma write_subblock_step index body w r w1 :
    wf w -> body (open_subblock w) = (r, w1) ->
    write_subblock index body w =
    match r with
    | Ok _ =>
        emit [pack_tag index Length4;
              DataStream.pack_uint32
                (Z.of_nat (length (contents w1 (length (sinks w)))));
              Some (contents w1 (length (sinks w)))]
          (Writer (sinks w1) (data w) (_in_block w1))
    | Raised e => (Raised e, Writer (sinks w1) (data w) (_in_block w1))
    end.
Proof.
    intros Hw Hbody. unfold wf in Hw.
    unfold write_subblock, bind, get_data, BytesIO, try_finally, bind, set_data.
    simpl. unfold open_subblock in Hbody. rewrite Hbody.
    destruct r as [[]|e]; [|reflexivity].
    unfold getbuffer, self_data, bind, get_data, emit, ret,
      DataStream.write_tag, DataStream.write_uint32, DataStream.write_bytes,
      contents; simpl.
    destruct (pack_tag index Length4); simpl; [|reflexivity].
    rewrite !list_lookup_alter_ne by lia.
    destruct (DataStream.pack_uint32 _); simpl; [|reflexivity].
    rewrite !list_lookup_alter_ne by lia. reflexivity.
Qed.

End Regions.

(** ** What a caller program can do to the store *)

Section Frame.
Context {wire : Wire}.

Lemma tame_emit chunks : tame (emit chunks).
Proof.
    intros w _. destruct (emit_appends chunks w) as (out & Ha & Hb).
    exists out. split; [exact Ha|]. intros Hw. congruence.
Qed.

Lemma tame_ext (m m' : M unit) : (forall w, m w = m' w) -> tame m' -> tame m.
Proof. intros Heq Hm w Hw. rewrite Heq. apply Hm, Hw. Qed.

Lemma tame_bind (m k : M unit) : tame m -> tame k -> tame (m ;; k).
Proof.
    intros Hm Hk w Hw. destruct (Hm w Hw) as (o1 & Ha1 & Hb1).
    unfold bind. destruct (m w) as [[[]|e] w1]; simpl in *.
    - destruct (Hk w1 (appends_wf _ _ _ Hw Ha1)) as (o2 & Ha2 & Hb2).
      exists (o1 ++ o2). split; [eapply appends_trans; eassumption|].
      intros Hb. apply Hb2, Hb1, Hb.
    - exists o1. split; assumption.
Qed.

Lemma tame_try_except (m k : M unit) : tame m -> tame k -> tame (try_except m k).
Proof.
    intros Hm Hk w Hw. destruct (Hm w Hw) as (o1 & Ha1 & Hb1).
    unfold try_except. destruct (m w) as [[[]|e] w1]; simpl in *.
    - exists o1. split; assumption.
    - destruct (Hk w1 (appends_wf _ _ _ Hw Ha1)) as (o2 & Ha2 & Hb2).
      exists (o1 ++ o2). split; [eapply appends_trans; eassumption|].
      intros Hb. apply Hb2, Hb1, Hb.
Qed.

Lemma tame_write_subblock index body : tame body -> tame (write_subblock index body).
Proof.
    intros Hbody w Hw.
    destruct (Hbody _ (wf_open_subblock w)) as (payload & Ha & Hb).
    destruct (body (open_subblock w)) as [r w1] eqn:Hrun; simpl in *.
    rewrite (write_subblock_step _ _ _ _ _ Hw Hrun).
    destruct (region_body_sinks _ _ _ _ Ha) as [_ [junk Hs]].
    pose proof (region_closed_appends w w1 payload junk (_in_block w1) Hs) as Hc.
    destruct r as [[]|e].
    - match goal with |- context [emit ?cs ?w2] =>
        destruct (emit_appends cs w2) as (out & Ho & Hf) end.
      exists ([] ++ out). split; [eapply appends_trans; eassumption|].
      rewrite Hf. exact Hb.
    - exists []. split; [exact Hc|exact Hb].
Qed.

Lemma tame_write_block block_type min_version current_version body :
    tame body -> tame (write_block block_type min_version current_version body).
Proof.
    intros Hbody w Hw. destruct (_in_block w) eqn:Hflag.
    - rewrite write_block_busy by exact Hflag. simpl.
      exists []. split; [apply appends_refl|intros _; exact Hflag].
    - destruct (Hbody _ (wf_open_block w)) as (payload & Ha & Hb).
      destruct (body (open_block w)) as [r w1] eqn:Hrun; simpl in *.
      rewrite (write_block_step _ _ _ _ _ _ _ Hw Hflag Hrun).
      destruct (region_body_sinks _ _ _ _ Ha) as [_ [junk Hs]].
      destruct r as [[]|e].
      + rewrite (Hb eq_refl).
        pose proof (region_closed_appends w w1 payload junk false Hs) as Hc.
        match goal with |- context [emit ?cs ?w2] =>
          destruct (emit_appends cs w2) as (out & Ho & Hf) end.
        exists ([] ++ out). split; [eapply appends_trans; eassumption|].
        intros Hcontra; discriminate.
      + exists []. split; [|intros Hcontra; discriminate].
        eapply region_closed_appends; exact Hs.
Qed.

Lemma tame_run p : tame (run p).
Proof.
    induction p; simpl.
    - intros w _. exists []. split; [apply appends_refl|auto].
    - apply tame_bind; assumption.
    - eapply tame_ext; [apply write_id_emit|apply tame_emit].
    - eapply tame_ext; [apply write_bool_emit|apply tame_emit].
    - eapply tame_ext; [apply write_byte_emit|apply tame_emit].
    - eapply tame_ext; [apply write_int_emit|apply tame_emit].
    - eapply tame_ext; [apply write_float_emit|apply tame_emit].
    - eapply tame_ext; [apply write_double_emit|apply tame_emit].
    - apply tame_write_block; assumption.
    - apply tame_write_subblock; assumption.
    - intros w _. exists []. split; [apply appends_refl|auto].
    - apply tame_try_except; assumption.
Qed.

(** The body of a region, run to its end from the fresh buffer: the
      buffer holds exactly what the body wrote, and every sink that
      existed when the region opened is as it was. *)
Lemma region_body_frame p w b r w1 :
    run p (Writer (sinks w ++ [[]]) (length (sinks w)) b) = (r, w1) ->
    data w1 = length (sinks w) /\
    (b = true -> _in_block w1 = true) /\
    exists payload junk,
      sinks w1 = sinks w ++ [payload] ++ junk /\
      contents w1 (length (sinks w)) = payload.
Proof.
    intros Hrun.
    assert (wf (Writer (sinks w ++ [[]]) (length (sinks w)) b)) as Hw0
      by (unfold wf; simpl; rewrite length_app; simpl; lia).
    destruct (tame_run p _ Hw0) as (payload & Ha & Hb). rewrite Hrun in *.
    simpl in *. destruct (region_body_sinks _ _ _ _ Ha) as [Hd [junk Hs]].
    split; [exact Hd|]. split; [exact Hb|].
    exists payload, junk. split; [exact Hs|]. eapply region_buffer; exact Hs.
Qed.

End Frame.

(** ** The fixed-width fields *)

Lemma byte_of_Z_value z : Z.of_N (Byte.to_N (byte_of_Z z)) = z mod 256.
Proof.
  assert (0 <= z mod 256 < 256) as Hr by (apply Z.mod_pos_bound; lia).
  unfold byte_of_Z. change 255 with (Z.ones 8). rewrite Z.land_ones by lia.
  change (2 ^ 8) with 256.
  destruct (Byte.of_N (Z.to_N (z mod 256))) as [b|] eqn:Hb.
  - apply Byte.to_of_N in Hb. rewrite Hb. lia.
  - apply Byte.of_N_None_iff in Hb. lia.
Qed.

Lemma length_uint32_le v : length (DataStream.uint32_le v) = 4%nat.
Proof. reflexivity. Qed.
Lemma le_value_uint32_le v :
  0 <= v < 2 ^ 32 -> le_value (DataStream.uint32_le v) = v.
Proof.
  intros Hv. unfold le_value, DataStream.uint32_le.
  cbn [fold_right].
  rewrite !byte_of_Z_value.
  rewrite !Z.shiftr_div_pow2 by lia.
  change (2 ^ 8) with 256. change (2 ^ 16) with 65536.
  change (2 ^ 24) with 16777216. change (2 ^ 32) with 4294967296 in Hv.
  pose proof (Z.div_mod v 256 ltac:(lia)).
  pose proof (Z.div_mod (v / 256) 256 ltac:(lia)).
  pose proof (Z.div_mod (v / 256 / 256) 256 ltac:(lia)).
  pose proof (Z.div_mod (v / 256 / 256 / 256) 256 ltac:(lia)).
  replace (v / 65536) with (v / 256 / 256)
    by (rewrite Z.div_div by lia; reflexivity).
  replace (v / 16777216) with (v / 256 / 256 / 256)
    by (rewrite !Z.div_div by lia; reflexivity).
  assert (v / 256 / 256 / 256 / 256 = 0) as Hz
    by (rewrite !Z.div_div by lia; apply Z.div_small; lia).
  lia.
Qed.
Lemma pack_uint32_in_range v :
  0 <= v < 2 ^ 32 -> DataStream.pack_uint32 v = Some (DataStream.uint32_le v).
Proof.
  intros Hv. unfold DataStream.pack_uint32.
  destruct (0 <=? v) eqn:H0; [|lia]. destruct (v <? 2 ^ 32) eqn:H1; [|lia].
  reflexivity.
Qed.

Lemma pack_uint32_returns v b :
  DataStream.pack_uint32 v = Some b ->
  0 <= v < 2 ^ 32 /\ b = DataStream.uint32_le v.
Proof.
  unfold DataStream.pack_uint32.
  destruct (0 <=? v) eqn:H0; [|discriminate].
  destruct (v <? 2 ^ 32) eqn:H1; [|discriminate].
  cbn [andb]. intros Hb. split; [lia|congruence].
Qed.

Lemma pack_uint8_in_range v :
  0 <= v < 256 -> DataStream.pack_uint8 v = Some [byte_of_Z v].
Proof.
  intros Hv. unfold DataStream.pack_uint8.
  destruct (0 <=? v) eqn:H0; [|lia]. destruct (v <? 256) eqn:H1; [|lia].
  reflexivity.
Qed.

Lemma pack_uint8_returns v b :
  DataStream.pack_uint8 v = Some b -> 0 <= v < 256 /\ b = [byte_of_Z v].
Proof.
  unfold DataStream.pack_uint8.
  destruct (0 <=? v) eqn:H0; [|discriminate].
  destruct (v <? 256) eqn:H1; [|discriminate].
  cbn [andb]. intros Hb. split; [lia|congruence].
Qed.

(** ** The variable-width field *)

Lemma varuint_last_group v :
  0 <= v < 128 -> Z.of_N (Byte.to_N (byte_of_Z (Z.land v 127))) mod 128 = v.
Proof.
  intros Hv. rewrite byte_of_Z_value. change 127 with (Z.ones 7).
  rewrite Z.land_ones by lia. change (2 ^ 7) with 128.
  rewrite (Z.mod_small v 128) by lia. rewrite (Z.mod_small v 256) by lia.
  apply Z.mod_small. lia.
Qed.

Lemma varuint_more_group v :
  Z.of_N (Byte.to_N (byte_of_Z (Z.lor (Z.land v 127) 128))) mod 128 = v mod 128.
Proof.
  rewrite byte_of_Z_value.
  assert (Z.lor (Z.land v 127) 128 = v mod 128 + 128) as ->.
  { pose proof (Z.add_lor_land (Z.land v 127) 128) as Hadd.
    rewrite <- Z.land_assoc in Hadd. change (Z.land 127 128) with 0 in Hadd.
    rewrite Z.land_0_r in Hadd. rewrite Z.add_0_r in Hadd. rewrite Hadd.
    change 127 with (Z.ones 7). rewrite Z.land_ones by lia. reflexivity. }
  pose proof (Z.mod_pos_bound v 128 ltac:(lia)).
  rewrite (Z.mod_small (v mod 128 + 128) 256) by lia.
  replace (v mod 128 + 128) with (v mod 128 + 1 * 128) by lia.
  rewrite Z.mod_add by lia. apply Z.mod_mod. lia.
Qed.

Lemma varuint_loop_value fuel : forall v,
  0 <= v < 2 ^ (7 * (Z.of_nat fuel + 1)) ->
  varuint_value (DataStream.varuint_loop fuel v) = v.
Proof.
  induction fuel as [|fuel IH]; intros v Hv.
  - change (2 ^ (7 * (Z.of_nat 0 + 1))) with 128 in Hv.
    cbn [DataStream.varuint_loop varuint_value fold_right].
    rewrite varuint_last_group by lia. lia.
  - cbn [DataStream.varuint_loop]. rewrite Z.shiftr_div_pow2 by lia.
    change (2 ^ 7) with 128.
    pose proof (Z.div_mod v 128 ltac:(lia)) as Hdm.
    pose proof (Z.mod_pos_bound v 128 ltac:(lia)) as Hm.
    destruct (v / 128 =? 0) eqn:Hq.
    + apply Z.eqb_eq in Hq. cbn [varuint_value fold_right].
      rewrite varuint_last_group by lia. lia.
    + apply Z.eqb_neq in Hq.
      change (varuint_value (byte_of_Z (Z.lor (Z.land v 127) 128)
                             :: DataStream.varuint_loop fuel (v / 128)))
        with (Z.of_N (Byte.to_N (byte_of_Z (Z.lor (Z.land v 127) 128))) mod 128 +
              128 * varuint_value (DataStream.varuint_loop fuel (v / 128))).
      rewrite varuint_more_group, IH; [lia|].
      split; [apply Z.div_pos; lia|].
      apply Z.div_lt_upper_bound; [lia|].
      replace (7 * (Z.of_nat (S fuel) + 1)) with (7 + 7 * (Z.of_nat fuel + 1)) in Hv by lia.
      rewrite Z.pow_add_r in Hv by lia. change (2 ^ 7) with 128 in Hv. lia.
Qed.

Lemma pack_varuint_value v :
  0 <= v ->
  exists b, DataStream.pack_varuint v = Some b /\ varuint_value b = v.
Proof.
  intros Hv. unfold DataStream.pack_varuint.
  destruct (v <? 0) eqn:Hneg; [lia|]. eexists. split; [reflexivity|].
  apply varuint_loop_value. rewrite Z2Nat.id by apply Z.log2_nonneg.
  split; [lia|].
  destruct (Z.eq_dec v 0) as [->|Hnz].
  - change (Z.log2 0) with 0. change (2 ^ (7 * (0 + 1))) with 128. lia.
  - pose proof (Z.log2_spec v ltac:(lia)) as [_ Hup].
    eapply Z.lt_le_trans; [exact Hup|].
    apply Z.pow_le_mono_r; [lia|]. pose proof (Z.log2_nonneg v). lia.
Qed.

Example pack_varuint_samples :
  DataStream.pack_varuint 0 = Some [x00] /\
  DataStream.pack_varuint 127 = Some [x7f] /\
  DataStream.pack_varuint 128 = Some [x80; x01] /\
  DataStream.pack_varuint 16384 = Some [x80; x80; x01] /\
  DataStream.pack_varuint (2 ^ 32 - 1) = Some [xff; xff; xff; xff; x0f] /\
  DataStream.pack_varuint (-1) = None.
Proof. vm_compute. repeat split. Qed.

(** * The tagged values *)

(** C6. For every index the layout packs and every CrdtId (author an
    unsigned byte, sequence an unsigned integer), [write_id] appends to
    the write target the tag of (index, ID), then the author as the one
    byte [write_uint8] packs, then the sequence as the base-128 varuint
    [write_varuint] packs, in that order, and nothing else: no other
    sink and no attribute of the writer changes. *)
Theorem write_id_layout {wire : Wire} (index : Z) (value : CrdtId)
    (tag : bytes) (w : writer) :
  wf w ->
  pack_tag index ID = Some tag ->
  0 <= part1 value < 256 ->
  0 <= part2 value ->
  exists sequence,
    DataStream.pack_uint8 (part1 value) = Some [byte_of_Z (part1 value)] /\
    le_value [byte_of_Z (part1 value)] = part1 value /\
    DataStream.pack_varuint (part2 value) = Some sequence /\
    varuint_value sequence = part2 value /\
    write_id index value w =
      (Ok tt, written w (tag ++ [byte_of_Z (part1 value)] ++ sequence)) /\
    contents (snd (write_id index value w)) (data w) =
      contents w (data w) ++ tag ++ [byte_of_Z (part1 value)] ++ sequence.
Proof.
  intros Hw Htag Hauthor Hseq.
  pose proof (pack_uint8_in_range _ Hauthor) as Ha.
  destruct (pack_varuint_value _ Hseq) as (sequence & Hs & Hv).
  exists sequence. split; [exact Ha|]. split.
  { unfold le_value. cbn [fold_right]. rewrite byte_of_Z_value.
    rewrite Z.mod_small by lia. lia. }
  split; [exact Hs|]. split; [exact Hv|].
  assert (write_id index value w =
          (Ok tt, written w (tag ++ [byte_of_Z (part1 value)] ++ sequence))) as Hrun.
  { rewrite write_id_emit. apply emit_packed.
    cbn [packed_all]. rewrite Htag, Ha, Hs, app_nil_r. reflexivity. }
  split; [exact Hrun|]. rewrite Hrun. cbn [snd].
  apply appends_target; [exact Hw|apply written_appends].
Qed.

Lemma write_id_layout_witness :
  wf (init []) /\
  pack_tag (Wire := rm_v6) 1 ID = Some [x1f] /\
  0 <= part1 {| part1 := 3; part2 := 300 |} < 256 /\
  0 <= part2 {| part1 := 3; part2 := 300 |} /\
  exists sequence,
    DataStream.pack_uint8 3 = Some [byte_of_Z 3] /\
    le_value [byte_of_Z 3] = 3 /\
    DataStream.pack_varuint 300 = Some sequence /\
    varuint_value sequence = 300 /\
    write_id (wire := rm_v6) 1 {| part1 := 3; part2 := 300 |} (init []) =
      (Ok tt, written (init []) ([x1f] ++ [byte_of_Z 3] ++ sequence)) /\
    contents (snd (write_id (wire := rm_v6) 1 {| part1 := 3; part2 := 300 |} (init []))) 0 =
      contents (init []) 0 ++ [x1f] ++ [byte_of_Z 3] ++ sequence.
Proof.
  assert (wf (init [])) as Hw by apply wf_init.
  assert (pack_tag (Wire := rm_v6) 1 ID = Some [x1f]) as Ht by (vm_compute; reflexivity).
  assert (0 <= part1 {| part1 := 3; part2 := 300 |} < 256) as Ha by (simpl; lia).
  assert (0 <= part2 {| part1 := 3; part2 := 300 |}) as Hs by (simpl; lia).
  repeat (split; [assumption|]).
  exact (write_id_layout (wire := rm_v6) 1 {| part1 := 3; part2 := 300 |}
           [x1f] (init []) Hw Ht Ha Hs).
Defined.

(** The bytes of that call: tag 0x1f, author 3, sequence 300 in two
    groups of seven bits. *)
Example write_id_bytes :
  write_id (wire := rm_v6) 1 {| part1 := 3; part2 := 300 |} (init []) =
  (Ok tt, Writer [[x1f; x03; xac; x02]] 0 false).
Proof. vm_compute. reflexivity. Qed.

(** C7, as [write_uint32] has it. For every index the layout packs:
    a value from 0 to 2^32 - 1 is appended after the tag of
    (index, Byte4) as four bytes, least significant first, which read
    back unsigned give the value; any other integer, the negative ones
    included, is refused with an encoding-range error once the tag is
    written. *)
Theorem write_int_unsigned {wire : Wire} (index value : Z) (tag : bytes)
    (w : writer) :
  pack_tag index Byte4 = Some tag ->
  (0 <= value < 2 ^ 32 /\
   write_int index value w =
     (Ok tt, written w (tag ++ DataStream.uint32_le value)) /\
   length (DataStream.uint32_le value) = 4%nat /\
   le_value (DataStream.uint32_le value) = value)
  \/
  (~ 0 <= value < 2 ^ 32 /\
   write_int index value w = (Raised EncodingRangeError, written w tag)).
Proof.
  intros Htag. rewrite write_int_emit.
  destruct (DataStream.pack_uint32 value) as [four|] eqn:Hp.
  - apply pack_uint32_returns in Hp as [Hr ->]. left.
    split; [exact Hr|]. split.
    + apply emit_packed. cbn [packed_all].
      rewrite Htag, app_nil_r. reflexivity.
    + split; [reflexivity|apply le_value_uint32_le, Hr].
  - right. split.
    + intros Hr. rewrite (pack_uint32_in_range _ Hr) in Hp. discriminate.
    + rewrite emit_cons, Htag, emit_cons. reflexivity.
Qed.

Lemma write_int_unsigned_witness :
  pack_tag (Wire := rm_v6) 3 Byte4 = Some [x34] /\
  ((0 <= 4294967295 < 2 ^ 32 /\
    write_int (wire := rm_v6) 3 4294967295 (init []) =
      (Ok tt, written (init []) ([x34] ++ DataStream.uint32_le 4294967295)) /\
    length (DataStream.uint32_le 4294967295) = 4%nat /\
    le_value (DataStream.uint32_le 4294967295) = 4294967295)
   \/
   (~ 0 <= 4294967295 < 2 ^ 32 /\
    write_int (wire := rm_v6) 3 4294967295 (init []) =
      (Raised EncodingRangeError, written (init []) [x34]))).
Proof.
  assert (pack_tag (Wire := rm_v6) 3 Byte4 = Some [x34]) as Ht
    by (vm_compute; reflexivity).
  split; [exact Ht|].
  exact (write_int_unsigned (wire := rm_v6) 3 4294967295 [x34] (init []) Ht).
Defined.

(** C7 as written fails at the value -1: the tag is written, the value
    is refused, and no four bytes follow. *)
Lemma write_int_negative_value :
  write_int (wire := rm_v6) 3 (-1) (init []) =
    (Raised EncodingRangeError, Writer [[x34]] 0 false) /\
  ~ (forall (index value : Z) (w : writer),
       0 <= index -> wf w ->
       exists tag four,
         pack_tag (Wire := rm_v6) index Byte4 = Some tag /\
         length four = 4%nat /\
         write_int (wire := rm_v6) index value w =
           (Ok tt, written w (tag ++ four))).
Proof.
  assert (write_int (wire := rm_v6) 3 (-1) (init []) =
          (Raised EncodingRangeError, Writer [[x34]] 0 false)) as Hrun
    by (vm_compute; reflexivity).
  split; [exact Hrun|].
  intros Hall.
  destruct (Hall 3 (-1) (init []) ltac:(lia) (wf_init [])) as (tag & four & _ & _ & Hok).
  rewrite Hrun in Hok. discriminate.
Qed.

(** * The regions *)

Lemma region_flush w w1 payload junk b out :
  wf w ->
  sinks w1 = sinks w ++ [payload] ++ junk ->
  appends w (written (Writer (sinks w1) (data w) b) out) out.
Proof.
  intros Hw Hs. change out with ([] ++ out) at 2.
  eapply appends_trans; [exact Hw| |apply written_appends].
  eapply region_closed_appends; exact Hs.
Qed.

Lemma subblock_header_packed {wire : Wire} index payload out :
  packed_all [pack_tag index Length4;
              DataStream.pack_uint32 (Z.of_nat (length payload));
              Some payload] = Some out ->
  exists tag,
    pack_tag index Length4 = Some tag /\
    Z.of_nat (length payload) < 2 ^ 32 /\
    out = tag ++ DataStream.uint32_le (Z.of_nat (length payload)) ++ payload.
Proof.
  cbn [packed_all]. destruct (pack_tag index Length4) as [tag|]; [|discriminate].
  destruct (DataStream.pack_uint32 _) as [four|] eqn:Hp; [|discriminate].
  apply pack_uint32_returns in Hp as [Hr ->].
  rewrite app_nil_r. intros Hout. exists tag.
  split; [reflexivity|]. split; [lia|congruence].
Qed.

Lemma block_header_packed block_type min_version current_version payload out :
  packed_all [DataStream.pack_uint32 (Z.of_nat (length payload));
              DataStream.pack_uint8 0;
              DataStream.pack_uint8 min_version;
              DataStream.pack_uint8 current_version;
              DataStream.pack_uint8 block_type;
              Some payload] = Some out ->
  Z.of_nat (length payload) < 2 ^ 32 /\
  0 <= min_version < 256 /\ 0 <= current_version < 256 /\
  0 <= block_type < 256 /\
  out = DataStream.uint32_le (Z.of_nat (length payload)) ++
        [x00; byte_of_Z min_version; byte_of_Z current_version;
         byte_of_Z block_type] ++ payload.
Proof.
  cbn [packed_all].
  destruct (DataStream.pack_uint32 _) as [four|] eqn:Hp; [|discriminate].
  apply pack_uint32_returns in Hp as [Hr ->].
  change (DataStream.pack_uint8 0) with (Some [x00]).
  destruct (DataStream.pack_uint8 min_version) as [b1|] eqn:H1; [|discriminate].
  destruct (DataStream.pack_uint8 current_version) as [b2|] eqn:H2; [|discriminate].
  destruct (DataStream.pack_uint8 block_type) as [b3|] eqn:H3; [|discriminate].
  apply pack_uint8_returns in H1 as [? ->].
  apply pack_uint8_returns in H2 as [? ->].
  apply pack_uint8_returns in H3 as [? ->].
  rewrite app_nil_r. intros Hout.
  repeat (split; [lia|]). injection Hout as <-. reflexivity.
Qed.

(** A subblock that returned: its body returned, the tag and the
    length packed, and the header and the buffer went to the target the
    subblock found. *)
Lemma write_subblock_returns {wire : Wire} index (body : script) w w' :
  wf w ->
  write_subblock index (run body) w = (Ok tt, w') ->
  exists w1 tag junk,
    run body (open_subblock w) = (Ok tt, w1) /\
    pack_tag index Length4 = Some tag /\
    Z.of_nat (length (contents w1 (length (sinks w)))) < 2 ^ 32 /\
    sinks w1 = sinks w ++ [contents w1 (length (sinks w))] ++ junk /\
    w' = written (Writer (sinks w1) (data w) (_in_block w1))
           (tag ++ DataStream.uint32_le
                     (Z.of_nat (length (contents w1 (length (sinks w))))) ++
            contents w1 (length (sinks w))).
Proof.
  intros Hw Hrun.
  destruct (run body (open_subblock w)) as [r w1] eqn:Hbody.
  rewrite (write_subblock_step _ _ _ _ _ Hw Hbody) in Hrun.
  destruct (region_body_frame _ _ _ _ _ Hbody) as (_ & _ & payload & junk & Hs & Hp).
  destruct r as [[]|e]; [|discriminate].
  apply emit_returns in Hrun as (out & Hout & ->).
  apply subblock_header_packed in Hout as (tag & Htag & Hlen & ->).
  subst payload. exists w1, tag, junk. repeat split; assumption.
Qed.

(** A block that returned: it was opened from the idle state, its body
    returned, the length and the three header values fit their slots,
    and the header and the buffer went to the target the block found. *)
Lemma write_block_returns {wire : Wire} block_type min_version current_version
    (body : script) w w' :
  wf w ->
  write_block block_type min_version current_version (run body) w = (Ok tt, w') ->
  exists w1 junk,
    _in_block w = false /\
    run body (open_block w) = (Ok tt, w1) /\
    Z.of_nat (length (contents w1 (length (sinks w)))) < 2 ^ 32 /\
    0 <= min_version < 256 /\ 0 <= current_version < 256 /\
    0 <= block_type < 256 /\
    sinks w1 = sinks w ++ [contents w1 (length (sinks w))] ++ junk /\
    w' = written (Writer (sinks w1) (data w) false)
           (DataStream.uint32_le
              (Z.of_nat (length (contents w1 (length (sinks w))))) ++
            [x00; byte_of_Z min_version; byte_of_Z current_version;
             byte_of_Z block_type] ++
            contents w1 (length (sinks w))).
Proof.
  intros Hw Hrun.
  destruct (_in_block w) eqn:Hflag.
  { rewrite write_block_busy in Hrun by exact Hflag. discriminate. }
  destruct (run body (open_block w)) as [r w1] eqn:Hbody.
  rewrite (write_block_step _ _ _ _ _ _ _ Hw Hflag Hbody) in Hrun.
  destruct (region_body_frame _ _ _ _ _ Hbody) as (_ & Hb & payload & junk & Hs & Hp).
  destruct r as [[]|e]; [|discriminate].
  rewrite (Hb eq_refl) in Hrun.
  apply emit_returns in Hrun as (out & Hout & ->).
  apply block_header_packed in Hout as (Hlen & Hmin & Hcur & Hty & ->).
  subst payload. exists w1, junk. repeat split; assumption || lia.
Qed.

(** With a body that returns and values that fit their slots, the block
    does close. *)
Lemma write_block_closes {wire : Wire} block_type min_version current_version
    (body : script) w w1 :
  wf w -> _in_block w = false ->
  run body (open_block w) = (Ok tt, w1) ->
  Z.of_nat (length (contents w1 (length (sinks w)))) < 2 ^ 32 ->
  0 <= min_version < 256 -> 0 <= current_version < 256 ->
  0 <= block_type < 256 ->
  write_block block_type min_version current_version (run body) w =
  (Ok tt, written (Writer (sinks w1) (data w) false)
            (DataStream.uint32_le
               (Z.of_nat (length (contents w1 (length (sinks w))))) ++
             [x00; byte_of_Z min_version; byte_of_Z current_version;
              byte_of_Z block_type] ++
             contents w1 (length (sinks w)))).
Proof.
  intros Hw Hflag Hbody Hlen Hmin Hcur Hty.
  rewrite (write_block_step _ _ _ _ _ _ _ Hw Hflag Hbody).
  destruct (region_body_frame _ _ _ _ _ Hbody) as (_ & Hb & _).
  rewrite (Hb eq_refl). apply emit_packed. cbn [packed_all].
  rewrite pack_uint32_in_range by lia.
  rewrite !pack_uint8_in_range by lia.
  rewrite app_nil_r. reflexivity.
Qed.

Lemma write_subblock_closes {wire : Wire} index tag (body : script) w w1 :
  wf w ->
  run body (open_subblock w) = (Ok tt, w1) ->
  pack_tag index Length4 = Some tag ->
  Z.of_nat (length (contents w1 (length (sinks w)))) < 2 ^ 32 ->
  write_subblock index (run body) w =
  (Ok tt, written (Writer (sinks w1) (data w) (_in_block w1))
            (tag ++ DataStream.uint32_le
                      (Z.of_nat (length (contents w1 (length (sinks w))))) ++
             contents w1 (length (sinks w)))).
Proof.
  intros Hw Hbody Htag Hlen.
  rewrite (write_subblock_step _ _ _ _ _ Hw Hbody).
  apply emit_packed. cbn [packed_all].
  rewrite Htag, pack_uint32_in_range by lia.
  rewrite app_nil_r. reflexivity.
Qed.

(** C1. A top-level block around any caller program of tagged values
    and subblocks, once it has closed normally, has appended to the
    sink that was the write target when it opened: the four-byte length,
    which is the byte count of what the block's buffer holds when the
    body is done, a zero byte, min_version, current_version, block_type
    (each a value of one byte) and then that buffer, in this order; the target is that sink again,
    no block is open and no other sink has changed. *)
Theorem write_block_layout {wire : Wire}
    (block_type min_version current_version : Z) (body : script)
    (w w' : writer) :
  wf w ->
  write_block block_type min_version current_version (run body) w = (Ok tt, w') ->
  exists w1 payload,
    run body (open_block w) = (Ok tt, w1) /\
    contents w1 (length (sinks w)) = payload /\
    Z.of_nat (length payload) < 2 ^ 32 /\
    le_value (DataStream.uint32_le (Z.of_nat (length payload))) =
      Z.of_nat (length payload) /\
    0 <= min_version < 256 /\ 0 <= current_version < 256 /\
    0 <= block_type < 256 /\
    contents w' (data w) =
      contents w (data w) ++
      DataStream.uint32_le (Z.of_nat (length payload)) ++
      [x00; byte_of_Z min_version; byte_of_Z current_version;
       byte_of_Z block_type] ++
      payload /\
    data w' = data w /\
    _in_block w' = false /\
    forall r, (r < length (sinks w))%nat -> r <> data w ->
              sinks w' !! r = sinks w !! r.
Proof.
  intros Hw Hrun.
  destruct (write_block_returns _ _ _ _ _ _ Hw Hrun)
    as (w1 & junk & _ & Hbody & Hlen & Hmin & Hcur & Hty & Hs & ->).
  pose proof (region_flush w w1 _ junk false
                (DataStream.uint32_le
                   (Z.of_nat (length (contents w1 (length (sinks w))))) ++
                 [x00; byte_of_Z min_version; byte_of_Z current_version;
                  byte_of_Z block_type] ++
                 contents w1 (length (sinks w))) Hw Hs) as Ha.
  exists w1, (contents w1 (length (sinks w))).
  split; [exact Hbody|]. split; [reflexivity|]. split; [exact Hlen|].
  split; [apply le_value_uint32_le; lia|].
  split; [exact Hmin|]. split; [exact Hcur|]. split; [exact Hty|].
  split; [apply (appends_target _ _ _ Hw Ha)|].
  split; [reflexivity|]. split; [reflexivity|].
  intros r Hr Hne. apply (appends_other _ _ _ _ Ha Hr Hne).
Qed.

Lemma write_block_layout_witness :
  wf (init []) /\
  write_block 7 1 2 (run three_fields) (init []) =
    (Ok tt,
     Writer [[x0a; x00; x00; x00; x00; x01; x02; x07;
              x1f; x03; x05; x21; x01; x34; x2a; x00; x00; x00];
             [x1f; x03; x05; x21; x01; x34; x2a; x00; x00; x00]] 0 false) /\
  exists w1,
    run three_fields (open_block (init [])) = (Ok tt, w1) /\
    contents w1 1 = [x1f; x03; x05; x21; x01; x34; x2a; x00; x00; x00].
Proof.
  assert (write_block 7 1 2 (run three_fields) (init []) =
    (Ok tt,
     Writer [[x0a; x00; x00; x00; x00; x01; x02; x07;
              x1f; x03; x05; x21; x01; x34; x2a; x00; x00; x00];
             [x1f; x03; x05; x21; x01; x34; x2a; x00; x00; x00]] 0 false))
    as Hrun by (vm_compute; reflexivity).
  split; [apply wf_init|]. split; [exact Hrun|].
  destruct (write_block_layout (wire := rm_v6) 7 1 2 three_fields (init []) _
              (wf_init []) Hrun) as (w1 & payload & Hbody & Hp & _).
  exists w1. split; [exact Hbody|].
  clear Hrun Hp. vm_compute in Hbody. injection Hbody as <-. reflexivity.
Defined.

Lemma write_subblock_layout_aux {wire : Wire} index (body : script) w w' :
  wf w ->
  write_subblock index (run body) w = (Ok tt, w') ->
  exists w1 tag,
    run body (open_subblock w) = (Ok tt, w1) /\
    pack_tag index Length4 = Some tag /\
    Z.of_nat (length (contents w1 (length (sinks w)))) < 2 ^ 32 /\
    (forall r, (r < length (sinks w))%nat -> sinks w1 !! r = sinks w !! r) /\
    appends w w'
      (tag ++ DataStream.uint32_le
                (Z.of_nat (length (contents w1 (length (sinks w))))) ++
       contents w1 (length (sinks w))).
Proof.
  intros Hw Hrun.
  destruct (write_subblock_returns _ _ _ _ Hw Hrun)
    as (w1 & tag & junk & Hbody & Htag & Hlen & Hs & ->).
  exists w1, tag. split; [exact Hbody|]. split; [exact Htag|].
  split; [exact Hlen|]. split.
  - intros r Hr. rewrite Hs. apply lookup_app_l, Hr.
  - eapply region_flush; [exact Hw|exact Hs].
Qed.

(** C2. A subblock around any caller program, once it has closed
    normally, has appended to the sink that was the write target when it
    opened, whichever that was: the tag of (index, Length4), the
    four-byte unsigned length, which is the byte count of what the
    subblock's buffer holds when the body is done, and then that buffer;
    the target is that sink again and no other sink has changed. *)
Theorem write_subblock_layout {wire : Wire} (index : Z) (body : script)
    (w w' : writer) :
  wf w ->
  write_subblock index (run body) w = (Ok tt, w') ->
  exists w1 payload tag,
    run body (open_subblock w) = (Ok tt, w1) /\
    contents w1 (length (sinks w)) = payload /\
    pack_tag index Length4 = Some tag /\
    Z.of_nat (length payload) < 2 ^ 32 /\
    le_value (DataStream.uint32_le (Z.of_nat (length payload))) =
      Z.of_nat (length payload) /\
    contents w' (data w) =
      contents w (data w) ++
      tag ++ DataStream.uint32_le (Z.of_nat (length payload)) ++ payload /\
    data w' = data w /\
    forall r, (r < length (sinks w))%nat -> r <> data w ->
              sinks w' !! r = sinks w !! r.
Proof.
  intros Hw Hrun.
  destruct (write_subblock_layout_aux _ _ _ _ Hw Hrun)
    as (w1 & tag & Hbody & Htag & Hlen & _ & Ha).
  exists w1, (contents w1 (length (sinks w))), tag.
  split; [exact Hbody|]. split; [reflexivity|]. split; [exact Htag|].
  split; [exact Hlen|]. split; [apply le_value_uint32_le; lia|].
  split; [apply (appends_target _ _ _ Hw Ha)|].
  split; [apply Ha|].
  intros r Hr Hne. apply (appends_other _ _ _ _ Ha Hr Hne).
Qed.

Lemma write_subblock_layout_witness :
  wf (open_block (init [])) /\
  write_subblock (wire := rm_v6) 4 (run (wire := rm_v6) (WriteBool 2 true)) (open_block (init [])) =
    (Ok tt, Writer [[]; [x4c; x02; x00; x00; x00; x21; x01]; [x21; x01]] 1 true) /\
  exists w1,
    run (wire := rm_v6) (WriteBool 2 true) (open_subblock (open_block (init []))) =
      (Ok tt, w1) /\
    contents w1 2 = [x21; x01].
Proof.
  assert (write_subblock (wire := rm_v6) 4 (run (wire := rm_v6) (WriteBool 2 true))
            (open_block (init [])) =
          (Ok tt, Writer [[]; [x4c; x02; x00; x00; x00; x21; x01]; [x21; x01]] 1 true))
    as Hrun by (vm_compute; reflexivity).
  split; [apply wf_open_block|]. split; [exact Hrun|].
  destruct (write_subblock_layout (wire := rm_v6) 4
              (WriteBool (wire := rm_v6) 2 true)
              (open_block (init [])) _ (wf_open_block _) Hrun)
    as (w1 & payload & tag & Hbody & Hp & _).
  exists w1. split; [exact Hbody|].
  clear Hrun Hp. vm_compute in Hbody. injection Hbody as <-. reflexivity.
Defined.

Lemma bind_returns {A B} (m : M A) (k : A -> M B) w b w' :
  bind m k w = (Ok b, w') ->
  exists a w1, m w = (Ok a, w1) /\ k a w1 = (Ok b, w').
Proof.
  unfold bind. destruct (m w) as [[a|e] w1]; [|discriminate].
  intros Hk. exists a, w1. split; [reflexivity|exact Hk].
Qed.

Lemma run_appends {wire : Wire} (p : script) w r w1 :
  wf w -> run p w = (r, w1) ->
  wf w1 /\ (_in_block w = true -> _in_block w1 = true) /\
  exists out, appends w w1 out.
Proof.
  intros Hw Hrun. destruct (tame_run p w Hw) as (out & Ha & Hb).
  rewrite Hrun in *. simpl in *.
  split; [eapply appends_wf; eassumption|]. split; [exact Hb|].
  exists out. exact Ha.
Qed.

(** C3. Subblock A around: some writes, then subblock B, then more
    writes. Once A has closed normally the sink A found holds, after
    what it held: the header of A, what A's buffer held when B opened
    (nothing when B is opened first), the header of B, the payload of B,
    and the rest of A's payload. While B was the active region no sink
    that existed when B opened, A's buffer included, received a byte. *)
Theorem nested_subblock_layout {wire : Wire} (a b : Z)
    (pre inner rest : script) (w w' : writer) :
  wf w ->
  run (WithSubblock a (Then pre (Then (WithSubblock b inner) rest))) w =
    (Ok tt, w') ->
  exists wP wB wR wA tagA tagB preA payloadB restA,
    let headerB := tagB ++ DataStream.uint32_le (Z.of_nat (length payloadB)) in
    let payloadA := preA ++ headerB ++ payloadB ++ restA in
    let headerA := tagA ++ DataStream.uint32_le (Z.of_nat (length payloadA)) in
    pack_tag a Length4 = Some tagA /\
    pack_tag b Length4 = Some tagB /\
    run pre (open_subblock w) = (Ok tt, wP) /\
    contents wP (length (sinks w)) = preA /\
    (pre = Pass -> preA = []) /\
    run inner (open_subblock wP) = (Ok tt, wB) /\
    contents wB (length (sinks wP)) = payloadB /\
    (forall r, (r < length (sinks wP))%nat -> sinks wB !! r = sinks wP !! r) /\
    write_subblock b (run inner) wP = (Ok tt, wR) /\
    contents wR (length (sinks w)) = preA ++ headerB ++ payloadB /\
    run rest wR = (Ok tt, wA) /\
    contents wA (length (sinks w)) = payloadA /\
    contents w' (data w) = contents w (data w) ++ headerA ++ payloadA.
Proof.
  intros Hw Hrun. cbn [run] in Hrun.
  destruct (write_subblock_layout_aux a
              (Then pre (Then (WithSubblock b inner) rest)) _ _ Hw Hrun)
    as (wA & tagA & Hbody & HtagA & _ & _ & HaA).
  cbn [run] in Hbody.
  apply bind_returns in Hbody as ([] & wP & Hpre & Hbody).
  apply bind_returns in Hbody as ([] & wR & Hsub & Hrest).
  destruct (run_appends _ _ _ _ (wf_open_subblock w) Hpre) as (HwP & _ & outP & HaP).
  assert (data wP = length (sinks w)) as HdP by apply HaP.
  destruct (write_subblock_layout_aux _ _ _ _ HwP Hsub)
    as (wB & tagB & Hinner & HtagB & _ & HframeB & HaB).
  assert (wf wR) as HwR by (eapply appends_wf; eassumption).
  assert (data wR = length (sinks w)) as HdR
    by (rewrite <- HdP; apply HaB).
  destruct (run_appends _ _ _ _ HwR Hrest) as (_ & _ & restA & HaR).
  pose proof (appends_target _ _ _ HwP HaB) as HcR.
  pose proof (appends_target _ _ _ HwR HaR) as HcA.
  rewrite HdP in HcR. rewrite HdR in HcA. rewrite HcR in HcA.
  exists wP, wB, wR, wA, tagA, tagB,
    (contents wP (length (sinks w))), (contents wB (length (sinks wP))), restA.
  cbn zeta.
  assert (contents wA (length (sinks w)) =
          contents wP (length (sinks w)) ++
          (tagB ++ DataStream.uint32_le
                     (Z.of_nat (length (contents wB (length (sinks wP)))))) ++
          contents wB (length (sinks wP)) ++ restA) as HpA.
  { rewrite HcA, <- !app_assoc. reflexivity. }
  split; [exact HtagA|]. split; [exact HtagB|]. split; [exact Hpre|].
  split; [reflexivity|]. split.
  { intros ->. cbn [run] in Hpre. unfold ret in Hpre. injection Hpre as <-.
    unfold contents, open_subblock. cbn [sinks].
    rewrite list_lookup_middle by reflexivity. reflexivity. }
  split; [exact Hinner|]. split; [reflexivity|]. split; [exact HframeB|].
  split; [exact Hsub|]. split.
  { rewrite HcR, <- !app_assoc. reflexivity. }
  split; [exact Hrest|]. split; [exact HpA|].
  rewrite (appends_target _ _ _ Hw HaA), HpA, <- !app_assoc. reflexivity.
Qed.

Lemma nested_subblock_layout_witness :
  wf (init []) /\
  run (wire := rm_v6)
    (WithSubblock 1 (Then Pass (Then (WithSubblock 2 (WriteByte 1 9)) (WriteByte 2 8))))
    (init []) =
    (Ok tt,
     Writer [[x1c; x09; x00; x00; x00; x2c; x02; x00; x00; x00; x11; x09; x21; x08];
             [x2c; x02; x00; x00; x00; x11; x09; x21; x08];
             [x11; x09]] 0 false) /\
  exists tagA tagB payloadB restA,
    pack_tag (Wire := rm_v6) 1 Length4 = Some tagA /\
    pack_tag (Wire := rm_v6) 2 Length4 = Some tagB /\
    [x1c; x09; x00; x00; x00; x2c; x02; x00; x00; x00; x11; x09; x21; x08] =
      (tagA ++ DataStream.uint32_le
                 (Z.of_nat (length
                    ((tagB ++ DataStream.uint32_le (Z.of_nat (length payloadB))) ++
                     payloadB ++ restA)))) ++
      (tagB ++ DataStream.uint32_le (Z.of_nat (length payloadB))) ++
      payloadB ++ restA.
Proof.
  assert (run (wire := rm_v6)
    (WithSubblock 1 (Then Pass (Then (WithSubblock 2 (WriteByte 1 9)) (WriteByte 2 8))))
    (init []) =
    (Ok tt,
     Writer [[x1c; x09; x00; x00; x00; x2c; x02; x00; x00; x00; x11; x09; x21; x08];
             [x2c; x02; x00; x00; x00; x11; x09; x21; x08];
             [x11; x09]] 0 false)) as Hrun by (vm_compute; reflexivity).
  split; [apply wf_init|]. split; [exact Hrun|].
  destruct (nested_subblock_layout (wire := rm_v6) 1 2 Pass (WriteByte 1 9)
              (WriteByte 2 8) (init []) _ (wf_init []) Hrun)
    as (wP & wB & wR & wA & tagA & tagB & preA & payloadB & restA &
        HtA & HtB & _ & _ & Hpre & _ & _ & _ & _ & _ & _ & _ & Hfinal).
  rewrite (Hpre eq_refl) in Hfinal.
  exists tagA, tagB, payloadB, restA.
  split; [exact HtA|]. split; [exact HtB|]. exact Hfinal.
Defined.

(** * Nesting of top-level blocks *)

Lemma write_block_body_ext block_type min_version current_version
    (body body' : M unit) w :
  body (open_block w) = body' (open_block w) ->
  write_block block_type min_version current_version body w =
  write_block block_type min_version current_version body' w.
Proof.
  intros Heq. unfold write_block, bind, get_in_block.
  destruct (_in_block w); [reflexivity|].
  unfold get_data, BytesIO, try_finally, bind, set_data, set_in_block.
  cbn [sinks data _in_block]. unfold open_block in Heq. rewrite Heq.
  reflexivity.
Qed.

(** C4. In a state where a block is open, [write_block] raises
    UnexpectedBlockError, which is not the I/O error, before its body or
    anything else runs, and the state is the one it found: same sinks,
    same write target, block still open. So it is inside a first block
    after some writes: the target is still the block's buffer, and when
    the caller catches the error and goes on with more writes, the first
    block closes normally and emits its header and its payload, the
    bytes written before and after the attempt, exactly as the same
    block without the attempt. *)
Theorem second_block_refused {wire : Wire}
    (block_type min_version current_version : Z) (body : M unit)
    (first_type first_min first_current : Z) (before after : script)
    (w w0 w1 w2 : writer) :
  _in_block w = true ->
  wf w0 -> _in_block w0 = false ->
  run before (open_block w0) = (Ok tt, w1) ->
  run after w1 = (Ok tt, w2) ->
  Z.of_nat (length (contents w2 (length (sinks w0)))) < 2 ^ 32 ->
  0 <= first_min < 256 -> 0 <= first_current < 256 ->
  0 <= first_type < 256 ->
  write_block block_type min_version current_version body w =
    (Raised (UnexpectedBlockError "Already in a block"), w) /\
  UnexpectedBlockError "Already in a block" <> OSError /\
  _in_block w1 = true /\
  data w1 = length (sinks w0) /\
  write_block block_type min_version current_version body w1 =
    (Raised (UnexpectedBlockError "Already in a block"), w1) /\
  data w2 = data w1 /\
  (exists added,
     contents w2 (length (sinks w0)) = contents w1 (length (sinks w0)) ++ added) /\
  write_block first_type first_min first_current
    (run before ;;
     try_except (write_block block_type min_version current_version body) (ret tt) ;;
     run after) w0 =
  write_block first_type first_min first_current (run before ;; run after) w0 /\
  exists w',
    write_block first_type first_min first_current
      (run before ;;
       try_except (write_block block_type min_version current_version body) (ret tt) ;;
       run after) w0 = (Ok tt, w') /\
    _in_block w' = false /\
    data w' = data w0 /\
    contents w' (data w0) =
      contents w0 (data w0) ++
      DataStream.uint32_le (Z.of_nat (length (contents w2 (length (sinks w0))))) ++
      [x00; byte_of_Z first_min; byte_of_Z first_current;
       byte_of_Z first_type] ++
      contents w2 (length (sinks w0)).
Proof.
  intros Hflag Hw0 Hidle Hbefore Hafter Hlen Hmin Hcur Hty.
  destruct (run_appends _ _ _ _ (wf_open_block w0) Hbefore)
    as (Hw1 & Hf1 & o1 & Ha1).
  specialize (Hf1 eq_refl).
  destruct (run_appends _ _ _ _ Hw1 Hafter) as (_ & Hf2 & o2 & Ha2).
  specialize (Hf2 Hf1).
  assert (data w1 = length (sinks w0)) as Hd1 by apply Ha1.
  pose proof (appends_trans _ _ _ _ _ (wf_open_block w0) Ha1 Ha2) as Ha.
  destruct (region_body_sinks _ _ _ _ Ha) as [_ [junk Hs]].
  pose proof (region_buffer _ _ _ _ Hs) as Hp.
  assert ((run before ;;
           try_except (write_block block_type min_version current_version body)
             (ret tt) ;;
           run after) (open_block w0) = (Ok tt, w2)) as Hbody.
  { unfold bind at 1. rewrite Hbefore. unfold bind, try_except.
    rewrite (write_block_busy _ _ _ _ _ Hf1). cbn [ret]. exact Hafter. }
  split; [apply write_block_busy, Hflag|].
  split; [discriminate|]. split; [exact Hf1|]. split; [exact Hd1|].
  split; [apply write_block_busy, Hf1|]. split; [apply Ha2|].
  split.
  { exists o2. rewrite <- Hd1. apply (appends_target _ _ _ Hw1 Ha2). }
  split.
  { apply write_block_body_ext. rewrite Hbody.
    unfold bind. rewrite Hbefore. symmetry. exact Hafter. }
  rewrite (write_block_step _ _ _ _ _ _ _ Hw0 Hidle Hbody), Hf2.
  erewrite emit_packed.
  2:{ cbn [packed_all]. rewrite pack_uint32_in_range by lia.
      rewrite !pack_uint8_in_range by lia. rewrite app_nil_r. reflexivity. }
  eexists. split; [reflexivity|]. split; [reflexivity|]. split; [reflexivity|].
  apply (appends_target _ _ _ Hw0). rewrite Hp.
  eapply region_flush; [exact Hw0|exact Hs].
Qed.

Lemma second_block_refused_witness :
  _in_block (open_block (init [])) = true /\
  wf (init []) /\
  _in_block (init []) = false /\
  run (wire := rm_v6) (WriteBool 2 true) (open_block (init [])) =
    (Ok tt, Writer [[]; [x21; x01]] 1 true) /\
  run (wire := rm_v6) (WriteInt 3 42) (Writer [[]; [x21; x01]] 1 true) =
    (Ok tt, Writer [[]; [x21; x01; x34; x2a; x00; x00; x00]] 1 true) /\
  write_block 9 1 1 (ret tt) (Writer [[]; [x21; x01]] 1 true) =
    (Raised (UnexpectedBlockError "Already in a block"),
     Writer [[]; [x21; x01]] 1 true) /\
  exists w',
    write_block 7 1 2
      (run (wire := rm_v6) (WriteBool 2 true) ;;
       try_except (write_block 9 1 1 (ret tt)) (ret tt) ;;
       run (wire := rm_v6) (WriteInt 3 42)) (init []) = (Ok tt, w') /\
    _in_block w' = false /\
    contents w' 0 =
      [] ++ DataStream.uint32_le 7 ++
      [x00; byte_of_Z 1; byte_of_Z 2; byte_of_Z 7] ++
      [x21; x01; x34; x2a; x00; x00; x00].
Proof.
  assert (run (wire := rm_v6) (WriteBool 2 true) (open_block (init [])) =
          (Ok tt, Writer [[]; [x21; x01]] 1 true)) as Hbefore
    by (vm_compute; reflexivity).
  assert (run (wire := rm_v6) (WriteInt 3 42) (Writer [[]; [x21; x01]] 1 true) =
          (Ok tt, Writer [[]; [x21; x01; x34; x2a; x00; x00; x00]] 1 true))
    as Hafter by (vm_compute; reflexivity).
  split; [reflexivity|]. split; [apply wf_init|]. split; [reflexivity|].
  split; [exact Hbefore|]. split; [exact Hafter|].
  destruct (second_block_refused (wire := rm_v6) 9 1 1 (ret tt) 7 1 2
              (WriteBool 2 true) (WriteInt 3 42)
              (open_block (init [])) (init []) _ _
              eq_refl (wf_init _) eq_refl Hbefore Hafter
              ltac:(vm_compute; reflexivity) ltac:(lia) ltac:(lia) ltac:(lia))
    as (_ & _ & _ & _ & Hrefused & _ & _ & _ & w' & Hrun & Hflag & _ & Hc).
  split; [exact Hrefused|].
  exists w'. split; [exact Hrun|]. split; [exact Hflag|exact Hc].
Defined.

(** The first block of that run closes with both fields in its payload. *)
Example second_block_refused_bytes :
  write_block 7 1 2
    (run (wire := rm_v6) (WriteBool 2 true) ;;
     try_except (write_block 9 1 1 (ret tt)) (ret tt) ;;
     run (wire := rm_v6) (WriteInt 3 42)) (init []) =
  (Ok tt,
   Writer [[x07; x00; x00; x00; x00; x01; x02; x07;
            x21; x01; x34; x2a; x00; x00; x00];
           [x21; x01; x34; x2a; x00; x00; x00]] 0 false).
Proof. vm_compute. reflexivity. Qed.

(** * Errors inside a region *)

(** Whatever the body is, an exception it raises leaves the region with
    the store as it was at the raise and the target put back. *)
Lemma region_raises {wire : Wire} (g : region) (body : M unit) w w1 e :
  wf w -> admits g w = true ->
  body (open_region g w) = (Raised e, w1) ->
  with_region g body w = (Raised e, Writer (sinks w1) (data w) (_in_block w1)).
Proof.
  intros Hw Hg Hbody.
  destruct g as [bt mv cv|index]; cbn [with_region admits open_region] in *.
  - apply negb_true_iff in Hg.
    rewrite (write_block_step _ _ _ _ _ _ _ Hw Hg Hbody). reflexivity.
  - rewrite (write_subblock_step _ _ _ _ _ Hw Hbody). reflexivity.
Qed.

Lemma region_body_sinks_script {wire : Wire} (g : region) (body : script) w r w1 :
  run body (open_region g w) = (r, w1) ->
  data w1 = length (sinks w) /\
  (forall b mv cv, g = Block b mv cv -> _in_block w1 = true) /\
  exists payload junk, sinks w1 = sinks w ++ [payload] ++ junk.
Proof.
  intros Hbody. destruct g as [bt mv cv|index]; cbn [open_region] in Hbody.
  - destruct (region_body_frame _ _ _ _ _ Hbody) as (Hd & Hb & p & j & Hs & _).
    split; [exact Hd|]. split; [intros; apply Hb; reflexivity|]. eauto.
  - destruct (region_body_frame _ _ _ _ _ Hbody) as (Hd & _ & p & j & Hs & _).
    split; [exact Hd|]. split; [discriminate|]. eauto.
Qed.

(** C5. A block or a subblock around any caller program: when the
    program raises, the target at the raise is the region's own buffer;
    the exception leaves the region with the target back on the sink
    that was active before the region opened, and a later write goes to
    that sink, after what it held, and not to the abandoned buffer. *)
Theorem target_restored_on_error {wire : Wire} (g : region) (body : script)
    (w w1 : writer) (e : exn) (chunk : bytes) :
  wf w -> admits g w = true ->
  run body (open_region g w) = (Raised e, w1) ->
  exists w',
    with_region g (run body) w = (Raised e, w') /\
    data w1 = length (sinks w) /\
    data w' = data w /\
    data w' <> data w1 /\
    contents (snd (self_data (fun ds => DataStream.write_bytes ds chunk) w')) (data w) =
      contents w (data w) ++ chunk /\
    contents (snd (self_data (fun ds => DataStream.write_bytes ds chunk) w')) (data w1) =
      contents w1 (data w1).
Proof.
  intros Hw Hg Hbody.
  destruct (region_body_sinks_script _ _ _ _ _ Hbody) as (Hd & _ & payload & junk & Hs).
  exists (Writer (sinks w1) (data w) (_in_block w1)).
  split; [apply (region_raises _ _ _ _ _ Hw Hg Hbody)|].
  split; [exact Hd|]. split; [reflexivity|].
  unfold wf in Hw. split; [cbn [data]; lia|].
  change (self_data (fun ds => DataStream.write_bytes ds chunk)
            (Writer (sinks w1) (data w) (_in_block w1)))
    with (Ok tt, written (Writer (sinks w1) (data w) (_in_block w1)) chunk).
  cbn [snd]. split.
  - apply (appends_target w _ chunk Hw). eapply region_flush; [exact Hw|exact Hs].
  - unfold contents, written. cbn [sinks data].
    rewrite list_lookup_alter_ne by lia. reflexivity.
Qed.

(** C10. A block or a subblock around any caller program: when the
    program raises, the exception leaves the region and every sink that
    existed when the region opened, the enclosing target among them,
    holds exactly the bytes it held then: no header field, no length and
    no buffered byte has been emitted. *)
Theorem region_error_emits_nothing {wire : Wire} (g : region) (body : script)
    (w w1 : writer) (e : exn) :
  wf w -> admits g w = true ->
  run body (open_region g w) = (Raised e, w1) ->
  exists w',
    with_region g (run body) w = (Raised e, w') /\
    contents w' (data w) = contents w (data w) /\
    take (length (sinks w)) (sinks w') = sinks w /\
    forall r, (r < length (sinks w))%nat -> sinks w' !! r = sinks w !! r.
Proof.
  intros Hw Hg Hbody.
  destruct (region_body_sinks_script _ _ _ _ _ Hbody) as (_ & _ & payload & junk & Hs).
  exists (Writer (sinks w1) (data w) (_in_block w1)).
  split; [apply (region_raises _ _ _ _ _ Hw Hg Hbody)|].
  assert (forall r, (r < length (sinks w))%nat -> sinks w1 !! r = sinks w !! r) as Hsame.
  { intros r Hr. rewrite Hs. apply lookup_app_l, Hr. }
  split; [|split].
  - unfold contents. cbn [sinks]. rewrite (Hsame _ Hw). reflexivity.
  - cbn [sinks]. rewrite Hs. apply take_app_length.
  - exact Hsame.
Qed.

Lemma target_restored_on_error_witness :
  wf (open_block (init [])) /\
  admits (Subblock 4) (open_block (init [])) = true /\
  run (wire := rm_v6) (Then (WriteBool 2 true) (WriteInt 3 (-1)))
    (open_region (Subblock 4) (open_block (init []))) =
    (Raised EncodingRangeError, Writer [[]; []; [x21; x01; x34]] 2 true) /\
  exists w',
    with_region (wire := rm_v6) (Subblock 4)
      (run (wire := rm_v6) (Then (WriteBool 2 true) (WriteInt 3 (-1))))
      (open_block (init [])) = (Raised EncodingRangeError, w') /\
    data w' = 1%nat /\
    contents (snd (self_data (fun ds => DataStream.write_bytes ds [x2a]) w')) 1 = [x2a].
Proof.
  assert (run (wire := rm_v6) (Then (WriteBool 2 true) (WriteInt 3 (-1)))
            (open_region (Subblock 4) (open_block (init []))) =
          (Raised EncodingRangeError, Writer [[]; []; [x21; x01; x34]] 2 true))
    as Hbody by (vm_compute; reflexivity).
  split; [apply wf_open_block|]. split; [reflexivity|]. split; [exact Hbody|].
  destruct (target_restored_on_error (wire := rm_v6) (Subblock 4)
              (Then (WriteBool 2 true) (WriteInt 3 (-1)))
              (open_block (init [])) _ EncodingRangeError [x2a]
              (wf_open_block _) eq_refl Hbody)
    as (w' & Hrun & _ & Hd & _ & Hlater & _).
  exists w'. split; [exact Hrun|]. split; [exact Hd|exact Hlater].
Defined.

Lemma region_error_emits_nothing_witness :
  wf (init [x41]) /\
  admits (Block 7 1 2) (init [x41]) = true /\
  run (wire := rm_v6) (Then (WriteBool 2 true) (RaiseExn (CallerError 1)))
    (open_region (Block 7 1 2) (init [x41])) =
    (Raised (CallerError 1), Writer [[x41]; [x21; x01]] 1 true) /\
  exists w',
    with_region (wire := rm_v6) (Block 7 1 2)
      (run (wire := rm_v6) (Then (WriteBool 2 true) (RaiseExn (CallerError 1))))
      (init [x41]) = (Raised (CallerError 1), w') /\
    contents w' 0 = [x41] /\
    take 1 (sinks w') = [[x41]].
Proof.
  assert (run (wire := rm_v6) (Then (WriteBool 2 true) (RaiseExn (CallerError 1)))
            (open_region (Block 7 1 2) (init [x41])) =
          (Raised (CallerError 1), Writer [[x41]; [x21; x01]] 1 true))
    as Hbody by (vm_compute; reflexivity).
  split; [apply wf_init|]. split; [reflexivity|]. split; [exact Hbody|].
  destruct (region_error_emits_nothing (wire := rm_v6) (Block 7 1 2)
              (Then (WriteBool 2 true) (RaiseExn (CallerError 1)))
              (init [x41]) _ (CallerError 1) (wf_init _) eq_refl Hbody)
    as (w' & Hrun & Hc & Ht & _).
  exists w'. split; [exact Hrun|]. split; [exact Hc|exact Ht].
Defined.

(** * A block that failed *)

(** C9. When the program inside a block raises, the exception leaves
    [write_block] with the target restored and the block flag still
    set; whatever the caller then does with the writer, the flag stays
    set, and every later [write_block] raises "Already in a block"
    without touching the writer. *)
Theorem failed_block_stays_open {wire : Wire}
    (block_type min_version current_version : Z) (body : script)
    (w w1 : writer) (e : exn)
    (later : script) (next_type next_min next_current : Z) (next_body : M unit) :
  wf w -> _in_block w = false ->
  run body (open_block w) = (Raised e, w1) ->
  exists w',
    write_block block_type min_version current_version (run body) w =
      (Raised e, w') /\
    data w' = data w /\
    _in_block w' = true /\
    _in_block (snd (run later w')) = true /\
    write_block next_type next_min next_current next_body (snd (run later w')) =
      (Raised (UnexpectedBlockError "Already in a block"), snd (run later w')).
Proof.
  intros Hw Hflag Hbody.
  destruct (region_body_frame _ _ _ _ _ Hbody) as (_ & Hb & payload & junk & Hs & _).
  exists (Writer (sinks w1) (data w) (_in_block w1)).
  split.
  { rewrite (write_block_step _ _ _ _ _ _ _ Hw Hflag Hbody). reflexivity. }
  split; [reflexivity|]. split; [apply Hb; reflexivity|].
  assert (wf (Writer (sinks w1) (data w) (_in_block w1))) as Hw'.
  { unfold wf in *. cbn [sinks data]. rewrite Hs, length_app. lia. }
  destruct (run later (Writer (sinks w1) (data w) (_in_block w1)))
    as [r w2] eqn:Hlater.
  destruct (run_appends _ _ _ _ Hw' Hlater) as (_ & Hkeep & _).
  cbn [snd]. cbn [_in_block] in Hkeep. specialize (Hkeep (Hb eq_refl)).
  split; [exact Hkeep|]. apply write_block_busy, Hkeep.
Qed.

Lemma failed_block_stays_open_witness :
  wf (init []) /\
  _in_block (init []) = false /\
  run (wire := rm_v6) (Then (WriteBool 2 true) (WriteInt 3 (-1)))
    (open_block (init [])) =
    (Raised EncodingRangeError, Writer [[]; [x21; x01; x34]] 1 true) /\
  exists w',
    write_block 7 1 2
      (run (wire := rm_v6) (Then (WriteBool 2 true) (WriteInt 3 (-1)))) (init []) =
      (Raised EncodingRangeError, w') /\
    _in_block w' = true /\
    write_block 8 1 1 (ret tt)
      (snd (run (wire := rm_v6) (WithSubblock 1 (WriteBool 1 false)) w')) =
      (Raised (UnexpectedBlockError "Already in a block"),
       snd (run (wire := rm_v6) (WithSubblock 1 (WriteBool 1 false)) w')).
Proof.
  assert (run (wire := rm_v6) (Then (WriteBool 2 true) (WriteInt 3 (-1)))
            (open_block (init [])) =
          (Raised EncodingRangeError, Writer [[]; [x21; x01; x34]] 1 true))
    as Hbody by (vm_compute; reflexivity).
  split; [apply wf_init|]. split; [reflexivity|]. split; [exact Hbody|].
  destruct (failed_block_stays_open (wire := rm_v6) 7 1 2
              (Then (WriteBool 2 true) (WriteInt 3 (-1))) (init []) _
              EncodingRangeError (WithSubblock 1 (WriteBool 1 false))
              8 1 1 (ret tt) (wf_init _) eq_refl Hbody)
    as (w' & Hrun & _ & Hflag & _ & Hnext).
  exists w'. split; [exact Hrun|]. split; [exact Hflag|exact Hnext].
Defined.

(** * A subblock outside any block *)

Lemma pack_uint32_out_of_range v :
  ~ 0 <= v < 2 ^ 32 -> DataStream.pack_uint32 v = None.
Proof.
  intros Hv. destruct (DataStream.pack_uint32 v) as [b|] eqn:Hp; [|reflexivity].
  apply pack_uint32_returns in Hp as [Hr _]. contradiction.
Qed.

(** C8. With no block open and the output stream as the write target,
    [write_subblock] runs its body whatever the index, and with a body
    that returns it does not raise a nesting error: either the tag and
    the length pack, and then tag, length and buffer are appended to the
    output stream itself, or one of them does not pack and the error is
    the encoding-range one. *)
Theorem subblock_outside_block {wire : Wire} (index : Z) (body : script)
    (w w1 : writer) :
  wf w -> data w = 0%nat -> _in_block w = false ->
  run body (open_subblock w) = (Ok tt, w1) ->
  (exists tag w',
     pack_tag index Length4 = Some tag /\
     Z.of_nat (length (contents w1 (length (sinks w)))) < 2 ^ 32 /\
     write_subblock index (run body) w = (Ok tt, w') /\
     data w' = 0%nat /\
     contents w' 0 =
       contents w 0 ++
       tag ++
       DataStream.uint32_le (Z.of_nat (length (contents w1 (length (sinks w))))) ++
       contents w1 (length (sinks w)))
  \/
  ((pack_tag index Length4 = None \/
    2 ^ 32 <= Z.of_nat (length (contents w1 (length (sinks w))))) /\
   exists w',
     write_subblock index (run body) w = (Raised EncodingRangeError, w')).
Proof.
  intros Hw Hd Hflag Hbody.
  destruct (region_body_frame _ _ _ _ _ Hbody) as (_ & _ & payload & junk & Hs & Hp).
  destruct (pack_tag index Length4) as [tag|] eqn:Htag.
  - destruct (Z_lt_dec (Z.of_nat (length (contents w1 (length (sinks w))))) (2 ^ 32))
      as [Hlen|Hlen].
    + left. exists tag. eexists. split; [reflexivity|]. split; [exact Hlen|].
      split; [apply (write_subblock_closes _ _ _ _ _ Hw Hbody Htag Hlen)|].
      split; [exact Hd|]. rewrite <- Hd at 1 2.
      apply (appends_target _ _ _ Hw). rewrite Hp.
      eapply region_flush; [exact Hw|exact Hs].
    + right. split; [right; lia|].
      rewrite (write_subblock_step _ _ _ _ _ Hw Hbody).
      rewrite emit_cons, Htag, emit_cons, pack_uint32_out_of_range by lia.
      eexists. reflexivity.
  - right. split; [left; reflexivity|].
    rewrite (write_subblock_step _ _ _ _ _ Hw Hbody).
    rewrite emit_cons, Htag. eexists. reflexivity.
Qed.

Lemma subblock_outside_block_witness :
  wf (init [x41]) /\
  data (init [x41]) = 0%nat /\
  _in_block (init [x41]) = false /\
  run (wire := rm_v6) (WriteBool 2 true) (open_subblock (init [x41])) =
    (Ok tt, Writer [[x41]; [x21; x01]] 1 false) /\
  write_subblock (wire := rm_v6) 4 (run (wire := rm_v6) (WriteBool 2 true))
    (init [x41]) =
    (Ok tt, Writer [[x41; x4c; x02; x00; x00; x00; x21; x01]; [x21; x01]] 0 false) /\
  ((exists tag w',
      pack_tag (Wire := rm_v6) 4 Length4 = Some tag /\
      Z.of_nat (length (contents (Writer [[x41]; [x21; x01]] 1 false)
                          (length (sinks (init [x41]))))) < 2 ^ 32 /\
      write_subblock (wire := rm_v6) 4 (run (wire := rm_v6) (WriteBool 2 true))
        (init [x41]) = (Ok tt, w') /\
      data w' = 0%nat /\
      contents w' 0 =
        contents (init [x41]) 0 ++
        tag ++
        DataStream.uint32_le
          (Z.of_nat (length (contents (Writer [[x41]; [x21; x01]] 1 false)
                               (length (sinks (init [x41])))))) ++
        contents (Writer [[x41]; [x21; x01]] 1 false) (length (sinks (init [x41]))))
   \/
   ((pack_tag (Wire := rm_v6) 4 Length4 = None \/
     2 ^ 32 <= Z.of_nat (length (contents (Writer [[x41]; [x21; x01]] 1 false)
                                  (length (sinks (init [x41])))))) /\
    exists w',
      write_subblock (wire := rm_v6) 4 (run (wire := rm_v6) (WriteBool 2 true))
        (init [x41]) = (Raised EncodingRangeError, w'))).
Proof.
  assert (run (wire := rm_v6) (WriteBool 2 true) (open_subblock (init [x41])) =
          (Ok tt, Writer [[x41]; [x21; x01]] 1 false)) as Hbody
    by (vm_compute; reflexivity).
  split; [apply wf_init|]. split; [reflexivity|]. split; [reflexivity|].
  split; [exact Hbody|]. split; [vm_compute; reflexivity|].
  exact (subblock_outside_block (wire := rm_v6) 4 (WriteBool 2 true)
           (init [x41]) _ (wf_init _) eq_refl eq_refl Hbody).
Defined.

(** * Further properties of the writer *)

(** ** Caller programs as a whole *)

(** X1. A caller program leaves the rest of the store alone. Whatever
    it does and however it ends, with a return or with an exception, the
    write target is the same sink afterwards, every other sink that
    existed is untouched, and the store has lost no sink. *)
Theorem run_keeps_other_sinks {wire : Wire} (p : script) (w w' : writer)
    (r : outcome unit) :
  wf w ->
  run p w = (r, w') ->
  wf w' /\
  data w' = data w /\
  (length (sinks w) <= length (sinks w'))%nat /\
  forall i, (i < length (sinks w))%nat -> i <> data w ->
            sinks w' !! i = sinks w !! i.
Proof.
  intros Hw Hrun.
  destruct (run_appends _ _ _ _ Hw Hrun) as (Hw' & _ & out & Ha).
  split; [exact Hw'|]. split; [apply Ha|].
  split; [apply (appends_length _ _ _ Ha)|].
  intros i Hi Hne. apply (appends_other _ _ _ _ Ha Hi Hne).
Qed.

Lemma run_keeps_other_sinks_witness :
  wf (Writer [[x41]; [x42]] 1 true) /\
  run (wire := rm_v6)
    (Then (WriteByte 1 9) (WithSubblock 2 (Then (WriteBool 1 true) (WriteInt 3 (-1)))))
    (Writer [[x41]; [x42]] 1 true) =
    (Raised EncodingRangeError,
     Writer [[x41]; [x42; x11; x09]; [x11; x01; x34]] 1 true) /\
  wf (Writer [[x41]; [x42; x11; x09]; [x11; x01; x34]] 1 true) /\
  forall i, (i < 2)%nat -> i <> 1%nat ->
    [[x41]; [x42; x11; x09]; [x11; x01; x34]] !! i = [[x41]; [x42]] !! i.
Proof.
  assert (run (wire := rm_v6)
    (Then (WriteByte 1 9) (WithSubblock 2 (Then (WriteBool 1 true) (WriteInt 3 (-1)))))
    (Writer [[x41]; [x42]] 1 true) =
    (Raised EncodingRangeError,
     Writer [[x41]; [x42; x11; x09]; [x11; x01; x34]] 1 true)) as Hrun
    by (vm_compute; reflexivity).
  assert (wf (Writer [[x41]; [x42]] 1 true)) as Hw by (unfold wf; simpl; lia).
  split; [exact Hw|]. split; [exact Hrun|].
  destruct (run_keeps_other_sinks (wire := rm_v6) _ _ _ _ Hw Hrun)
    as (Hw' & _ & _ & Hother).
  split; [exact Hw'|exact Hother].
Defined.

(** X3. The assertion of [write_block] never fails. Around any caller
    program, from the idle state, the block flag is set when the
    program ends, with a return or with an exception, so the
    [assert self._in_block] that follows a return holds; the block
    raises AssertionError only when the program inside raised it. *)
Theorem block_assertion_never_fails {wire : Wire}
    (block_type min_version current_version : Z) (body : script)
    (w w1 : writer) (r : outcome unit) :
  wf w -> _in_block w = false ->
  run body (open_block w) = (r, w1) ->
  _in_block w1 = true /\
  (fst (write_block block_type min_version current_version (run body) w) =
     Raised AssertionError ->
   r = Raised AssertionError).
Proof.
  intros Hw Hflag Hbody.
  destruct (run_appends _ _ _ _ (wf_open_block w) Hbody) as (_ & Hb & _).
  specialize (Hb eq_refl). split; [exact Hb|].
  rewrite (write_block_step _ _ _ _ _ _ _ Hw Hflag Hbody).
  destruct r as [[]|e].
  - rewrite Hb. intros Hfail.
    match type of Hfail with fst (emit ?cs ?s) = _ =>
      destruct (emit cs s) as [[[]|e] s'] eqn:Hemit end.
    + discriminate.
    + apply emit_raises in Hemit as [-> _]. discriminate.
  - cbn [fst]. intros Hfail. exact Hfail.
Qed.

Lemma block_assertion_never_fails_witness :
  wf (init []) /\
  _in_block (init []) = false /\
  run (wire := rm_v6)
    (Then (WithSubblock 4 (WriteBool 2 true))
          (TryExcept (WithBlock 8 1 1 Pass) (WriteInt 3 42)))
    (open_block (init [])) =
    (Ok tt,
     Writer [[]; [x4c; x02; x00; x00; x00; x21; x01; x34; x2a; x00; x00; x00];
             [x21; x01]] 1 true) /\
  _in_block
    (Writer [[]; [x4c; x02; x00; x00; x00; x21; x01; x34; x2a; x00; x00; x00];
             [x21; x01]] 1 true) = true /\
  (fst (write_block 7 1 2
          (run (wire := rm_v6)
             (Then (WithSubblock 4 (WriteBool 2 true))
                   (TryExcept (WithBlock 8 1 1 Pass) (WriteInt 3 42))))
          (init [])) = Raised AssertionError ->
   Ok tt = Raised AssertionError).
Proof.
  assert (run (wire := rm_v6)
    (Then (WithSubblock 4 (WriteBool 2 true))
          (TryExcept (WithBlock 8 1 1 Pass) (WriteInt 3 42)))
    (open_block (init [])) =
    (Ok tt,
     Writer [[]; [x4c; x02; x00; x00; x00; x21; x01; x34; x2a; x00; x00; x00];
             [x21; x01]] 1 true)) as Hbody by (vm_compute; reflexivity).
  split; [apply wf_init|]. split; [reflexivity|]. split; [exact Hbody|].
  exact (block_assertion_never_fails (wire := rm_v6) 7 1 2 _ (init []) _ _
           (wf_init _) eq_refl Hbody).
Defined.












(** ** The tagged values, when a value is refused *)

Lemma pack_uint8_out_of_range v :
  ~ 0 <= v < 256 -> DataStream.pack_uint8 v = None.
Proof.
  intros Hv. destruct (DataStream.pack_uint8 v) as [b|] eqn:Hp; [|reflexivity].
  apply pack_uint8_returns in Hp as [Hr _]. contradiction.
Qed.

(** X4. [write_byte] writes its tag before it looks at the value. A
    value from 0 to 255 follows the tag as the one byte that holds it;
    any other value raises the encoding-range error and leaves the tag
    alone at the end of the write target. *)
Theorem write_byte_total {wire : Wire} (index value : Z) (tag : bytes)
    (w : writer) :
  pack_tag index Byte1 = Some tag ->
  (0 <= value < 256 /\
   write_byte index value w = (Ok tt, written w (tag ++ [byte_of_Z value])) /\
   le_value [byte_of_Z value] = value)
  \/
  (~ 0 <= value < 256 /\
   write_byte index value w = (Raised EncodingRangeError, written w tag)).
Proof.
  intros Htag. rewrite write_byte_emit, emit_cons, Htag, emit_cons.
  destruct (DataStream.pack_uint8 value) as [b|] eqn:Hp.
  - apply pack_uint8_returns in Hp as [Hr ->]. left.
    split; [exact Hr|]. split.
    + cbn [emit ret]. rewrite written_written. reflexivity.
    + unfold le_value. cbn [fold_right]. rewrite byte_of_Z_value.
      rewrite Z.mod_small by lia. lia.
  - right. split; [|reflexivity].
    intros Hr. rewrite (pack_uint8_in_range _ Hr) in Hp. discriminate.
Qed.

Lemma write_byte_total_witness :
  pack_tag (Wire := rm_v6) 2 Byte1 = Some [x21] /\
  ((0 <= 256 < 256 /\
    write_byte (wire := rm_v6) 2 256 (init []) =
      (Ok tt, written (init []) ([x21] ++ [byte_of_Z 256])) /\
    le_value [byte_of_Z 256] = 256)
   \/
   (~ 0 <= 256 < 256 /\
    write_byte (wire := rm_v6) 2 256 (init []) =
      (Raised EncodingRangeError, written (init []) [x21]))).
Proof.
  assert (pack_tag (Wire := rm_v6) 2 Byte1 = Some [x21]) as Ht
    by (vm_compute; reflexivity).
  split; [exact Ht|].
  exact (write_byte_total (wire := rm_v6) 2 256 [x21] (init []) Ht).
Defined.


(** X6. [write_id] writes the tag before the author is looked at:
    with an author outside 0..255, whatever the sequence, the
    encoding-range error is raised with the tag alone written. *)
Theorem write_id_rejected {wire : Wire} (index : Z) (value : CrdtId)
    (tag : bytes) (w : writer) :
  pack_tag index ID = Some tag ->
  ~ 0 <= part1 value < 256 ->
  write_id index value w = (Raised EncodingRangeError, written w tag).
Proof.
  intros Htag Hbad. rewrite write_id_emit, emit_cons, Htag, emit_cons.
  rewrite (pack_uint8_out_of_range _ Hbad). reflexivity.
Qed.

Lemma write_id_rejected_witness :
  pack_tag (Wire := rm_v6) 1 ID = Some [x1f] /\
  ~ 0 <= part1 {| part1 := 300; part2 := 5 |} < 256 /\
  write_id (wire := rm_v6) 1 {| part1 := 300; part2 := 5 |} (init []) =
    (Raised EncodingRangeError, written (init []) [x1f]).
Proof.
  assert (pack_tag (Wire := rm_v6) 1 ID = Some [x1f]) as Ht
    by (vm_compute; reflexivity).
  assert (~ 0 <= part1 {| part1 := 300; part2 := 5 |} < 256) as Hbad
    by (simpl; lia).
  split; [exact Ht|]. split; [exact Hbad|].
  exact (write_id_rejected (wire := rm_v6) 1 {| part1 := 300; part2 := 5 |}
           [x1f] (init []) Ht Hbad).
Defined.

(** ** The regions at their edges *)

Lemma open_region_buffer_empty w b :
  contents (Writer (sinks w ++ [[]]) (length (sinks w)) b) (length (sinks w)) = [].
Proof.
  unfold contents. cbn [sinks]. rewrite list_lookup_middle by reflexivity.
  reflexivity.
Qed.

(** X7. A block with nothing written inside still emits its header:
    eight bytes, the length field being zero, go to the enclosing sink,
    and the writer is idle again. *)
Theorem empty_block (block_type min_version current_version : Z) (w : writer) :
  wf w -> _in_block w = false ->
  0 <= min_version < 256 -> 0 <= current_version < 256 ->
  0 <= block_type < 256 ->
  exists w',
    write_block block_type min_version current_version (ret tt) w = (Ok tt, w') /\
    _in_block w' = false /\
    data w' = data w /\
    contents w' (data w) =
      contents w (data w) ++
      [x00; x00; x00; x00; x00; byte_of_Z min_version;
       byte_of_Z current_version; byte_of_Z block_type].
Proof.
  intros Hw Hflag Hmin Hcur Hty.
  assert (ret tt (open_block w) = (Ok tt, open_block w)) as Hbody by reflexivity.
  rewrite (write_block_step _ _ _ (ret tt) _ _ _ Hw Hflag Hbody).
  cbn [open_block _in_block]. unfold open_block.
  rewrite open_region_buffer_empty. cbn [length Z.of_nat sinks].
  erewrite emit_packed with
    (out := [x00; x00; x00; x00; x00; byte_of_Z min_version;
             byte_of_Z current_version; byte_of_Z block_type]).
  2:{ cbn [packed_all]. rewrite !pack_uint8_in_range by lia. reflexivity. }
  eexists. split; [reflexivity|]. split; [reflexivity|]. split; [reflexivity|].
  apply (appends_target w _ _ Hw).
  exact (region_flush w (Writer (sinks w ++ [[]]) (data w) false) [] [] false
           _ Hw eq_refl).
Qed.

Lemma empty_block_witness :
  wf (init [x41]) /\
  _in_block (init [x41]) = false /\
  0 <= 1 < 256 /\ 0 <= 2 < 256 /\ 0 <= 7 < 256 /\
  exists w',
    write_block 7 1 2 (ret tt) (init [x41]) = (Ok tt, w') /\
    contents w' 0 = [x41; x00; x00; x00; x00; x00; x01; x02; x07].
Proof.
  split; [apply wf_init|]. split; [reflexivity|].
  split; [lia|]. split; [lia|]. split; [lia|].
  destruct (empty_block 7 1 2 (init [x41]) (wf_init _) eq_refl
              ltac:(lia) ltac:(lia) ltac:(lia)) as (w' & Hrun & _ & _ & Hc).
  exists w'. split; [exact Hrun|exact Hc].
Defined.

(** X8. A subblock with nothing written inside emits its tag and a
    length of zero. *)
Theorem empty_subblock {wire : Wire} (index : Z) (tag : bytes) (w : writer) :
  wf w ->
  pack_tag index Length4 = Some tag ->
  exists w',
    write_subblock index (ret tt) w = (Ok tt, w') /\
    data w' = data w /\
    contents w' (data w) = contents w (data w) ++ tag ++ [x00; x00; x00; x00].
Proof.
  intros Hw Htag.
  assert (ret tt (open_subblock w) = (Ok tt, open_subblock w)) as Hbody
    by reflexivity.
  rewrite (write_subblock_step _ (ret tt) _ _ _ Hw Hbody).
  unfold open_subblock. rewrite open_region_buffer_empty.
  cbn [length Z.of_nat sinks _in_block].
  erewrite emit_packed with (out := tag ++ [x00; x00; x00; x00]).
  2:{ cbn [packed_all]. rewrite Htag. reflexivity. }
  eexists. split; [reflexivity|]. split; [reflexivity|].
  apply (appends_target w _ _ Hw).
  exact (region_flush w (Writer (sinks w ++ [[]]) (data w) (_in_block w)) [] []
           (_in_block w) _ Hw eq_refl).
Qed.

Lemma empty_subblock_witness :
  wf (init [x41]) /\
  pack_tag (Wire := rm_v6) 4 Length4 = Some [x4c] /\
  exists w',
    write_subblock (wire := rm_v6) 4 (ret tt) (init [x41]) = (Ok tt, w') /\
    contents w' 0 = [x41; x4c; x00; x00; x00; x00].
Proof.
  assert (pack_tag (Wire := rm_v6) 4 Length4 = Some [x4c]) as Ht
    by (vm_compute; reflexivity).
  split; [apply wf_init|]. split; [exact Ht|].
  destruct (empty_subblock (wire := rm_v6) 4 [x4c] (init [x41]) (wf_init _) Ht)
    as (w' & Hrun & _ & Hc).
  exists w'. split; [exact Hrun|exact Hc].
Defined.

Lemma region_flush_contents w w1 payload junk b out :
  wf w ->
  sinks w1 = sinks w ++ [payload] ++ junk ->
  contents (written (Writer (sinks w1) (data w) b) out) (data w) =
  contents w (data w) ++ out.
Proof.
  intros Hw Hs. apply (appends_target w _ _ Hw).
  eapply region_flush; [exact Hw|exact Hs].
Qed.

Lemma uint8_range_dec v : {0 <= v < 256} + {~ 0 <= v < 256}.
Proof.
  destruct (Z_le_dec 0 v); [|right; lia].
  destruct (Z_lt_dec v 256); [left; lia|right; lia].
Qed.

(** X9. The header of a block is written field by field after the body
    is done. When min_version, current_version or block_type does not
    fit a byte, [write_block] raises the encoding-range error with the
    length, the zero byte and the header values before the bad one
    already on the enclosing sink; the payload is not written and the
    writer is idle. *)
Theorem block_header_rejected {wire : Wire}
    (block_type min_version current_version : Z) (body : script)
    (w w1 : writer) :
  wf w -> _in_block w = false ->
  run body (open_block w) = (Ok tt, w1) ->
  Z.of_nat (length (contents w1 (length (sinks w)))) < 2 ^ 32 ->
  ~ (0 <= min_version < 256 /\ 0 <= current_version < 256 /\
     0 <= block_type < 256) ->
  exists w' sent,
    write_block block_type min_version current_version (run body) w =
      (Raised EncodingRangeError, w') /\
    _in_block w' = false /\
    data w' = data w /\
    contents w' (data w) =
      contents w (data w) ++
      DataStream.uint32_le (Z.of_nat (length (contents w1 (length (sinks w))))) ++
      x00 :: sent /\
    ((~ 0 <= min_version < 256 /\ sent = []) \/
     (0 <= min_version < 256 /\ ~ 0 <= current_version < 256 /\
      sent = [byte_of_Z min_version]) \/
     (0 <= min_version < 256 /\ 0 <= current_version < 256 /\
      ~ 0 <= block_type < 256 /\
      sent = [byte_of_Z min_version; byte_of_Z current_version])).
Proof.
  intros Hw Hflag Hbody Hlen Hbad.
  rewrite (write_block_step _ _ _ _ _ _ _ Hw Hflag Hbody).
  destruct (region_body_frame _ _ _ _ _ Hbody) as (_ & Hb & payload & junk & Hs & Hp).
  rewrite (Hb eq_refl), Hp in *.
  rewrite emit_cons, pack_uint32_in_range by lia.
  rewrite emit_cons. change (DataStream.pack_uint8 0) with (Some [x00]).
  cbv iota. rewrite written_written, emit_cons.
  destruct (uint8_range_dec min_version) as [Hmin|Hmin].
  - rewrite (pack_uint8_in_range _ Hmin), written_written, emit_cons.
    destruct (uint8_range_dec current_version) as [Hcur|Hcur].
    + rewrite (pack_uint8_in_range _ Hcur), written_written, emit_cons.
      rewrite pack_uint8_out_of_range by tauto.
      eexists. exists [byte_of_Z min_version; byte_of_Z current_version].
      split; [reflexivity|]. split; [reflexivity|]. split; [reflexivity|].
      split; [|right; right; tauto].
      rewrite (region_flush_contents _ _ _ _ _ _ Hw Hs), <- !app_assoc.
      reflexivity.
    + rewrite (pack_uint8_out_of_range _ Hcur).
      eexists. exists [byte_of_Z min_version].
      split; [reflexivity|]. split; [reflexivity|]. split; [reflexivity|].
      split; [|right; left; tauto].
      rewrite (region_flush_contents _ _ _ _ _ _ Hw Hs), <- !app_assoc.
      reflexivity.
  - rewrite (pack_uint8_out_of_range _ Hmin).
    eexists. exists [].
    split; [reflexivity|]. split; [reflexivity|]. split; [reflexivity|].
    split; [|left; tauto].
    rewrite (region_flush_contents _ _ _ _ _ _ Hw Hs). reflexivity.
Qed.

Lemma block_header_rejected_witness :
  wf (init [x41]) /\
  _in_block (init [x41]) = false /\
  run (wire := rm_v6) (WriteBool 2 true) (open_block (init [x41])) =
    (Ok tt, Writer [[x41]; [x21; x01]] 1 true) /\
  ~ (0 <= 1 < 256 /\ 0 <= 300 < 256 /\ 0 <= 7 < 256) /\
  write_block 7 1 300 (run (wire := rm_v6) (WriteBool 2 true)) (init [x41]) =
    (Raised EncodingRangeError,
     Writer [[x41; x02; x00; x00; x00; x00; x01]; [x21; x01]] 0 false) /\
  exists w' sent,
    write_block 7 1 300 (run (wire := rm_v6) (WriteBool 2 true)) (init [x41]) =
      (Raised EncodingRangeError, w') /\
    _in_block w' = false /\
    contents w' 0 =
      [x41] ++ DataStream.uint32_le 2 ++ x00 :: sent.
Proof.
  assert (run (wire := rm_v6) (WriteBool 2 true) (open_block (init [x41])) =
          (Ok tt, Writer [[x41]; [x21; x01]] 1 true)) as Hbody
    by (vm_compute; reflexivity).
  assert (~ (0 <= 1 < 256 /\ 0 <= 300 < 256 /\ 0 <= 7 < 256)) as Hbad by lia.
  split; [apply wf_init|]. split; [reflexivity|]. split; [exact Hbody|].
  split; [exact Hbad|]. split; [vm_compute; reflexivity|].
  destruct (block_header_rejected (wire := rm_v6) 7 1 300 (WriteBool 2 true)
              (init [x41]) _ (wf_init _) eq_refl Hbody
              ltac:(vm_compute; reflexivity) Hbad)
    as (w' & sent & Hrun & Hflag & _ & Hc & _).
  exists w', sent. split; [exact Hrun|]. split; [exact Hflag|exact Hc].
Defined.

(** ** The file header *)

(** X10. [write_header] is not tied to the start of the stream: it
    writes the preamble to whichever sink is the write target. Outside a
    region that is the target itself; inside a block the preamble is
    buffered, counted in the length field and emitted after the block
    header as the payload. *)
Theorem write_header_follows_target (preamble : bytes)
    (block_type min_version current_version : Z) (w : writer) :
  wf w -> _in_block w = false ->
  0 <= min_version < 256 -> 0 <= current_version < 256 ->
  0 <= block_type < 256 ->
  Z.of_nat (length preamble) < 2 ^ 32 ->
  write_header preamble w = (Ok tt, written w preamble) /\
  exists w',
    write_block block_type min_version current_version
      (write_header preamble) w = (Ok tt, w') /\
    contents w' (data w) =
      contents w (data w) ++
      DataStream.uint32_le (Z.of_nat (length preamble)) ++
      [x00; byte_of_Z min_version; byte_of_Z current_version;
       byte_of_Z block_type] ++
      preamble.
Proof.
  intros Hw Hflag Hmin Hcur Hty Hlen. split; [reflexivity|].
  assert (write_header preamble (open_block w) =
          (Ok tt, written (open_block w) preamble)) as Hbody by reflexivity.
  rewrite (write_block_step _ _ _ _ _ _ _ Hw Hflag Hbody).
  assert (sinks (written (open_block w) preamble) =
          sinks w ++ [preamble] ++ []) as Hs.
  { unfold written, open_block. cbn [sinks data].
    rewrite alter_app_r_alt, Nat.sub_diag by lia. reflexivity. }
  rewrite (region_buffer _ _ _ _ Hs).
  change (_in_block (written (open_block w) preamble)) with true. cbv iota.
  erewrite emit_packed.
  2:{ cbn [packed_all]. rewrite pack_uint32_in_range by lia.
      rewrite !pack_uint8_in_range by lia. rewrite app_nil_r. reflexivity. }
  eexists. split; [reflexivity|].
  apply (region_flush_contents _ _ _ _ _ _ Hw Hs).
Qed.

Lemma write_header_follows_target_witness :
  wf (init []) /\
  _in_block (init []) = false /\
  0 <= 1 < 256 /\ 0 <= 2 < 256 /\ 0 <= 7 < 256 /\
  Z.of_nat (length [x72; x4d]) < 2 ^ 32 /\
  write_header [x72; x4d] (init []) = (Ok tt, written (init []) [x72; x4d]) /\
  exists w',
    write_block 7 1 2 (write_header [x72; x4d]) (init []) = (Ok tt, w') /\
    contents w' 0 =
      [] ++ DataStream.uint32_le 2 ++
      [x00; byte_of_Z 1; byte_of_Z 2; byte_of_Z 7] ++ [x72; x4d].
Proof.
  assert (Z.of_nat (length [x72; x4d]) < 2 ^ 32) as Hlen
    by (vm_compute; reflexivity).
  split; [apply wf_init|]. split; [reflexivity|].
  split; [lia|]. split; [lia|]. split; [lia|]. split; [exact Hlen|].
  exact (write_header_follows_target [x72; x4d] 7 1 2 (init []) (wf_init _)
           eq_refl ltac:(lia) ltac:(lia) ltac:(lia) Hlen).
Defined.

(** ** Regions inside regions *)

(** X11. [write_block] looks at the block flag only, not at the write
    target: with no block open it may be called inside a subblock, and
    then the whole block, header and payload, is buffered as the payload
    of that subblock, whose length field counts the eight header bytes
    too. *)
Theorem block_inside_subblock {wire : Wire} (index : Z) (tag : bytes)
    (block_type min_version current_version : Z) (body : script)
    (w w1 : writer) :
  wf w -> _in_block w = false ->
  pack_tag index Length4 = Some tag ->
  run body (open_block (open_subblock w)) = (Ok tt, w1) ->
  0 <= min_version < 256 -> 0 <= current_version < 256 ->
  0 <= block_type < 256 ->
  Z.of_nat (length (contents w1 (length (sinks (open_subblock w))))) + 8 < 2 ^ 32 ->
  exists w',
    run (WithSubblock index
           (WithBlock block_type min_version current_version body)) w =
      (Ok tt, w') /\
    _in_block w' = false /\
    contents w' (data w) =
      contents w (data w) ++
      tag ++
      DataStream.uint32_le
        (Z.of_nat (length (contents w1 (length (sinks (open_subblock w))))) + 8) ++
      DataStream.uint32_le
        (Z.of_nat (length (contents w1 (length (sinks (open_subblock w)))))) ++
      [x00; byte_of_Z min_version; byte_of_Z current_version;
       byte_of_Z block_type] ++
      contents w1 (length (sinks (open_subblock w))).
Proof.
  intros Hw Hflag Htag Hbody Hmin Hcur Hty Hlen.
  pose proof (write_block_closes block_type min_version current_version body
                (open_subblock w) w1 (wf_open_subblock w) Hflag Hbody
                ltac:(lia) Hmin Hcur Hty) as Hblock.
  change (write_block block_type min_version current_version (run body))
    with (run (WithBlock block_type min_version current_version body)) in Hblock.
  destruct (region_body_frame _ _ _ _ _ Hbody) as (_ & _ & p & jb & Hsb & Hpb).
  rewrite Hpb in *.
  destruct (region_body_frame _ _ _ _ _ Hblock) as (_ & _ & pa & ja & Hsa & Hpa).
  assert (pa = DataStream.uint32_le (Z.of_nat (length p)) ++
               [x00; byte_of_Z min_version; byte_of_Z current_version;
                byte_of_Z block_type] ++ p) as Hpayload.
  { rewrite <- Hpa.
    change (length (sinks w)) with (data (open_subblock w)).
    rewrite (region_flush_contents _ _ _ _ _ _ (wf_open_subblock w) Hsb).
    unfold open_subblock. cbn [data].
    rewrite open_region_buffer_empty. reflexivity. }
  assert (Z.of_nat (length pa) = Z.of_nat (length p) + 8) as Hla.
  { rewrite Hpayload, !length_app, length_uint32_le. cbn [length]. lia. }
  cbn [run]. cbn [run] in Hblock.
  pose proof (write_subblock_closes index tag
                (WithBlock block_type min_version current_version body)
                w _ Hw Hblock Htag) as Hsub.
  rewrite Hpa, Hla in Hsub. specialize (Hsub Hlen).
  cbn [run] in Hsub. rewrite Hsub.
  eexists. split; [reflexivity|]. split; [reflexivity|].
  match goal with |- contents (written (Writer ?s _ _) _) _ = _ =>
    change s with (sinks (Writer s 0 false)) end.
  rewrite (region_flush_contents w _ pa ja _ _ Hw Hsa), Hpayload. reflexivity.
Qed.

Lemma block_inside_subblock_witness :
  wf (init []) /\
  _in_block (init []) = false /\
  pack_tag (Wire := rm_v6) 4 Length4 = Some [x4c] /\
  run (wire := rm_v6) (WriteBool 2 true) (open_block (open_subblock (init []))) =
    (Ok tt, Writer [[]; []; [x21; x01]] 2 true) /\
  run (wire := rm_v6) (WithSubblock 4 (WithBlock 7 1 2 (WriteBool 2 true))) (init []) =
    (Ok tt,
     Writer [[x4c; x0a; x00; x00; x00; x02; x00; x00; x00; x00; x01; x02; x07;
              x21; x01];
             [x02; x00; x00; x00; x00; x01; x02; x07; x21; x01];
             [x21; x01]] 0 false) /\
  exists w',
    run (wire := rm_v6) (WithSubblock 4 (WithBlock 7 1 2 (WriteBool 2 true))) (init []) =
      (Ok tt, w') /\
    _in_block w' = false.
Proof.
  assert (pack_tag (Wire := rm_v6) 4 Length4 = Some [x4c]) as Ht
    by (vm_compute; reflexivity).
  assert (run (wire := rm_v6) (WriteBool 2 true)
            (open_block (open_subblock (init []))) =
          (Ok tt, Writer [[]; []; [x21; x01]] 2 true)) as Hbody
    by (vm_compute; reflexivity).
  split; [apply wf_init|]. split; [reflexivity|]. split; [exact Ht|].
  split; [exact Hbody|]. split; [vm_compute; reflexivity|].
  destruct (block_inside_subblock (wire := rm_v6) 4 [x4c] 7 1 2 (WriteBool 2 true)
              (init []) _ (wf_init _) eq_refl Ht Hbody
              ltac:(lia) ltac:(lia) ltac:(lia) ltac:(vm_compute; reflexivity))
    as (w' & Hrun & Hflag & _).
  exists w'. split; [exact Hrun|exact Hflag].
Defined.



